(** * STEM graduation-rate predictor: the prediction pipelines of
      [API/main.py] and [API/prediction.py]

    The development embeds the two request pipelines of the repository:
    the FastAPI handler [predict_graduation_rate] of [API/main.py]
    (together with the pydantic model [PredictionInput], the loader
    [load_model_and_encoders] and the [health_check] endpoint) and the
    class [STEMPredictionService] of [API/prediction.py].

    Numbers.  [year] is a Python [int] and is a [Z].  Python floats are
    values of [pyfloat]: a finite float is the rational it denotes, and the
    three special values keep the comparison rules of IEEE 754 (every order
    comparison with [NaN] is false).  Comparisons of floats are exact, so
    [<], [<=], [min] and [max] behave here as in Python.  Arithmetic
    ([StandardScaler.transform], [round]) is done on the rationals: binary
    rounding error of the scaled features is not represented.

    Collaborators.  The regressor is an arbitrary Python object obtained
    from [joblib.load]; the code applies three operations to it (truth
    test, [type(..).__name__], [.predict(..)[0]]) and [model_obj] records
    what each of them does.  [sklearn.preprocessing.LabelEncoder] is
    embedded by its documented behaviour: [fit] stores the sorted distinct
    labels, [transform] returns positions in that array and raises
    [ValueError] on a label it has not seen. *)

From Stdlib Require Import ZArith QArith Qround String Ascii List Bool Lia Lqa.
From Stdlib Require Import Permutation Sorted OrderedTypeEx Qabs.
Import ListNotations.

Local Open Scope list_scope.
Local Open Scope string_scope.

(* ------------------------------------------------------------------ *)
(** ** Python floats *)

Module PyFloat.

Inductive pyfloat : Type :=
| Finite (q : Q)
| PosInf
| NegInf
| NaN.

Definition of_int (z : Z) : pyfloat := Finite (inject_Z z).

(** [a < b] *)
Definition lt (a b : pyfloat) : bool :=
  match a, b with
  | NaN, _ | _, NaN => false
  | Finite x, Finite y => negb (Qle_bool y x)
  | Finite _, PosInf => true
  | Finite _, NegInf => false
  | PosInf, _ => false
  | NegInf, NegInf => false
  | NegInf, _ => true
  end.

(** [a <= b] *)
Definition le (a b : pyfloat) : bool :=
  match a, b with
  | NaN, _ | _, NaN => false
  | Finite x, Finite y => Qle_bool x y
  | Finite _, PosInf => true
  | Finite _, NegInf => false
  | PosInf, PosInf => true
  | PosInf, _ => false
  | NegInf, _ => true
  end.

(** [a > b] and [a >= b] are the reflected comparisons. *)
Definition gt (a b : pyfloat) : bool := lt b a.
Definition ge (a b : pyfloat) : bool := le b a.

(** The builtin [min(a, b)]: the first argument is kept unless the second
    compares strictly below it. *)
Definition py_min (a b : pyfloat) : pyfloat := if lt b a then b else a.

(** The builtin [max(a, b)]: the first argument is kept unless the second
    compares strictly above it. *)
Definition py_max (a b : pyfloat) : pyfloat := if gt b a then b else a.

(** Round a rational to the nearest integer, ties to even. *)
Definition round_half_even (q : Q) : Z :=
  let f := Qfloor q in
  match Qcompare (q - inject_Z f) (1 # 2) with
  | Lt => f
  | Gt => (f + 1)%Z
  | Eq => if Z.even f then f else (f + 1)%Z
  end.

(** [round(x, 2)] *)
Definition py_round2 (x : pyfloat) : pyfloat :=
  match x with
  | Finite q => Finite (round_half_even (q * 100) # 100)
  | _ => x
  end.

(** [x - m] and [x / s] for a finite [m] and a finite positive [s]. *)
Definition sub_const (x : pyfloat) (m : Q) : pyfloat :=
  match x with
  | Finite q => Finite (q - m)
  | _ => x
  end.

Definition div_const (x : pyfloat) (s : Q) : pyfloat :=
  match x with
  | Finite q => Finite (q / s)
  | _ => x
  end.

End PyFloat.
Export PyFloat.

(* ------------------------------------------------------------------ *)
(** ** Strings: formatting and containment *)

(** [sep.join(ls)] *)
Definition join (sep : string) (ls : list string) : string := String.concat sep ls.

(** [repr] of a [str] that has no quote, no backslash and no unprintable
    character, which is the case of every pinned label. *)
Definition repr_str (s : string) : string := "'" ++ s ++ "'".

(** [str] of a list of such strings, as an f-string prints it. *)
Definition repr_list (ls : list string) : string :=
  "[" ++ join ", " (map repr_str ls) ++ "]".

(** [mem v l] is the test [v in l] on a list of strings. *)
Definition mem (v : string) (l : list string) : bool :=
  existsb (String.eqb v) l.

(** [needle] occurs in [hay]. *)
Definition occurs_in (needle hay : string) : Prop :=
  exists pre post, hay = pre ++ needle ++ post.

(** The test [needle in hay] on strings. *)
Fixpoint contains (needle hay : string) : bool :=
  String.prefix needle hay
  || match hay with
     | EmptyString => false
     | String _ rest => contains needle rest
     end.

(* ------------------------------------------------------------------ *)
(** ** sklearn's LabelEncoder *)

Module LabelEncoder.

(** Strict lexicographic order on labels (code-point order). *)
Definition slt (a b : string) : Prop := String.compare a b = Lt.

(** Insertion into a sorted array without duplicates. *)
Fixpoint insert (x : string) (l : list string) : list string :=
  match l with
  | [] => [x]
  | y :: t =>
      match String.compare x y with
      | Lt => x :: y :: t
      | Eq => y :: t
      | Gt => y :: insert x t
      end
  end.

(** [np.unique]: the sorted distinct elements. *)
Definition unique (l : list string) : list string := fold_right insert [] l.

Record t : Type := { classes_ : list string }.

(** [LabelEncoder().fit(y)] *)
Definition fit (y : list string) : t := {| classes_ := unique y |}.

Fixpoint index_of (v : string) (l : list string) : option nat :=
  match l with
  | [] => None
  | y :: t => if String.eqb v y then Some O
              else option_map S (index_of v t)
  end.

(** [enc.transform([v])[0]]; [None] stands for the [ValueError] raised on a
    previously unseen label. *)
Definition transform (enc : t) (v : string) : option nat :=
  index_of v (classes_ enc).

(** Alphabetical rank of [v] in the label set of [l]: the number of distinct
    labels of [l] strictly below [v]. *)
Definition rank (l : list string) (v : string) : nat :=
  List.length (nodup string_dec (filter (fun x => String.ltb x v) l)).

End LabelEncoder.

(* ------------------------------------------------------------------ *)
(** ** Exceptions, collaborators and the call trace *)

(** One entry of a pydantic validation error. *)
Inductive field_error : Type :=
| NotGe (limit : Q)              (* a [ge=] constraint failed *)
| NotLe (limit : Q)              (* a [le=] constraint failed *)
| ValidatorError (msg : string). (* a [@validator] raised [ValueError(msg)] *)

(** A value of the [detail] dictionary of an [HTTPException]. *)
Inductive detail_value : Type :=
| DStr (s : string)
| DList (l : list string).

Inductive exn : Type :=
| RequestValidationError (errors : list (string * field_error))
| HTTPException (status_code : Z) (detail : list (string * detail_value))
| ValueError (msg : string)
| FileNotFoundError (msg : string)
| AttributeError (msg : string)
| OtherError (msg : string).

(** [str(e)] for the exceptions above. *)
Definition exn_str (e : exn) : string :=
  match e with
  | ValueError m | FileNotFoundError m | AttributeError m | OtherError m => m
  | RequestValidationError _ => "validation error"
  | HTTPException _ _ => "http exception"
  end.

(** The Python object behind [model], seen through the three operations
    the code applies to it.  [None] means that the operation raises. *)
Record model_obj : Type := {
  truth : option bool;                            (* [bool(model)] *)
  type_name : string;                             (* [type(model).__name__] *)
  predict0 : list pyfloat -> option pyfloat       (* [model.predict(X)[0]] *)
}.

(** [StandardScaler] with its two fitted arrays. *)
Record scaler_obj : Type := {
  mean_ : list Q;
  scale_ : list Q
}.

(** What [os.path.exists] and [joblib.load] find at the model path. *)
Inductive artifact : Type :=
| Missing
| Unreadable (why : string)      (* the file exists and [joblib.load] raises *)
| Stored (m : model_obj).

(** Calls made on the encoders, the scaler and the regressor. *)
Inductive call : Type :=
| EncoderTransform (classes : list string) (label : string)
| ScalerTransform (x : list pyfloat)
| ModelPredict (x : list pyfloat).

(** Computations that may raise and that record the calls they make. *)
Definition M (A : Type) : Type := list call -> (exn + A) * list call.

Definition ret {A} (a : A) : M A := fun tr => (inr a, tr).

Definition raise {A} (e : exn) : M A := fun tr => (inl e, tr).

Definition bind {A B} (m : M A) (k : A -> M B) : M B :=
  fun tr =>
    match m tr with
    | (inl e, tr') => (inl e, tr')
    | (inr a, tr') => k a tr'
    end.

Definition tell (c : call) : M unit := fun tr => (inr tt, tr ++ [c])%list.

(** [try: m  except ...: h e] *)
Definition try_except {A} (m : M A) (h : exn -> M A) : M A :=
  fun tr =>
    match m tr with
    | (inl e, tr') => h e tr'
    | r => r
    end.

(** Run a computation from the empty trace. *)
Definition run {A} (m : M A) : (exn + A) * list call := m [].

Declare Scope py_scope.
Delimit Scope py_scope with py.
Notation "x <- m ;; k" := (bind m (fun x => k))
  (at level 61, m at next level, right associativity) : py_scope.
Notation "m ;;; k" := (bind m (fun _ => k))
  (at level 61, right associativity) : py_scope.

(** [enc.transform([v])[0]] on a global that may still be [None]. *)
Definition encoder_transform (enc : option LabelEncoder.t) (v : string) : M nat :=
  match enc with
  | None => raise (AttributeError "'NoneType' object has no attribute 'transform'")
  | Some e =>
      (tell (EncoderTransform (LabelEncoder.classes_ e) v) ;;;
       match LabelEncoder.transform e v with
       | Some i => ret i
       | None => raise (ValueError "y contains previously unseen labels")
       end)%py
  end.

(** [(X - mean_) / scale_], element by element; numpy refuses arrays of
    different lengths. *)
Definition standardize (s : scaler_obj) (x : list pyfloat) : option (list pyfloat) :=
  if (Nat.eqb (List.length x) (List.length (mean_ s))
      && Nat.eqb (List.length x) (List.length (scale_ s)))%bool
  then Some (map (fun '(xi, (m, d)) => div_const (sub_const xi m) d)
                 (combine x (combine (mean_ s) (scale_ s))))
  else None.

(** [scaler.transform(features)] *)
Definition scaler_transform (sc : option scaler_obj) (x : list pyfloat) : M (list pyfloat) :=
  match sc with
  | None => raise (AttributeError "'NoneType' object has no attribute 'transform'")
  | Some s =>
      (tell (ScalerTransform x) ;;;
       match standardize s x with
       | Some y => ret y
       | None => raise (ValueError "operands could not be broadcast together")
       end)%py
  end.

(** [model.predict(features_scaled)[0]] *)
Definition model_predict (mo : option model_obj) (x : list pyfloat) : M pyfloat :=
  match mo with
  | None => raise (AttributeError "'NoneType' object has no attribute 'predict'")
  | Some m =>
      (tell (ModelPredict x) ;;;
       match predict0 m x with
       | Some y => ret y
       | None => raise (OtherError "predict failed")
       end)%py
  end.

(** [max(0.0, min(100.0, prediction))] *)
Definition clamp (prediction : pyfloat) : pyfloat :=
  py_max (Finite 0.0) (py_min (Finite 100.0) prediction).

(** The approximate statistics both modules give to the scaler. *)
Definition approximate_scaler : scaler_obj :=
  {| mean_ := [2018.0; 50.0; 0.7; 5.0; 1.5]%Q;
     scale_ := [5.0; 15.0; 0.15; 3.0; 1.2]%Q |}.

(** The linear regressor that [SGDRegressor.fit] leaves behind: it predicts
    [intercept_ + coef_ . x].  The weights depend on the random dummy data
    and are parameters. *)
Fixpoint dot (w : list Q) (x : list pyfloat) : pyfloat :=
  match w, x with
  | wi :: w', Finite xi :: x' =>
      match dot w' x' with
      | Finite r => Finite (wi * xi + r)
      | _ => NaN
      end
  | _ :: _, _ :: _ => NaN
  | _, _ => Finite 0
  end.

Definition SGDRegressor_fitted (coef_ : list Q) (intercept_ : Q) : model_obj :=
  {| truth := Some true;
     type_name := "SGDRegressor";
     predict0 := fun x =>
       if Nat.eqb (List.length x) (List.length coef_)
       then Some (match dot coef_ x with
                  | Finite r => Finite (intercept_ + r)
                  | _ => NaN
                  end)
       else None |}.

(* ------------------------------------------------------------------ *)
(** ** API/main.py *)

Module Main.

(** The request body, before and after pydantic has validated it. *)
Record PredictionInput : Type := {
  year : Z;
  female_enrollment_percent : pyfloat;
  gender_gap_index : pyfloat;
  country : string;
  stem_field : string
}.

Definition COUNTRIES : list string :=
  ["Australia"; "Brazil"; "Canada"; "China"; "France"; "Germany"; "India";
   "Japan"; "South Korea"; "United Kingdom"; "United States"].

Definition STEM_FIELDS : list string :=
  ["Biology"; "Computer Science"; "Engineering"; "Mathematics"].

(** The lists local to the two validators. *)
Definition supported_countries : list string :=
  ["Australia"; "Brazil"; "Canada"; "China"; "France"; "Germany"; "India";
   "Japan"; "South Korea"; "United Kingdom"; "United States"].

Definition supported_fields : list string :=
  ["Biology"; "Computer Science"; "Engineering"; "Mathematics"].

(** [Field(..., ge=lo, le=hi)]: the first failing bound is reported. *)
Definition number_errors (loc : string) (lo hi : Q) (v : pyfloat)
  : list (string * field_error) :=
  if negb (ge v (Finite lo)) then [(loc, NotGe lo)]
  else if negb (le v (Finite hi)) then [(loc, NotLe hi)]
  else [].

Definition validate_country (v : string) : exn + string :=
  if negb (mem v supported_countries) then
    inl (ValueError
           ("Country '" ++ v ++ "' is not supported. "
            ++ "Supported countries: " ++ join ", " supported_countries ++ ". "
            ++ "Use the /countries endpoint to get the complete list."))
  else inr v.

Definition validate_stem_field (v : string) : exn + string :=
  if negb (mem v supported_fields) then
    inl (ValueError
           ("STEM field '" ++ v ++ "' is not supported. "
            ++ "Supported fields: " ++ join ", " supported_fields ++ ". "
            ++ "Use the /stem-fields endpoint to get the complete list."))
  else inr v.

Definition validator_errors (loc : string) (r : exn + string)
  : list (string * field_error) :=
  match r with
  | inl e => [(loc, ValidatorError (exn_str e))]
  | inr _ => []
  end.

(** pydantic validates every field and collects the errors in the order of
    the field declarations. *)
Definition PredictionInput_errors (body : PredictionInput)
  : list (string * field_error) :=
  (number_errors "year" 2000 2030 (of_int (year body))
   ++ number_errors "female_enrollment_percent" 0.0 100.0
        (female_enrollment_percent body)
   ++ number_errors "gender_gap_index" 0.0 1.0 (gender_gap_index body)
   ++ validator_errors "country" (validate_country (country body))
   ++ validator_errors "stem_field" (validate_stem_field (stem_field body)))%list.

(** The module-level globals. *)
Record globals : Type := {
  model : option model_obj;
  scaler : option scaler_obj;
  country_encoder : option LabelEncoder.t;
  field_encoder : option LabelEncoder.t
}.

(** Their values when the module has been imported. *)
Definition initial_globals : globals :=
  {| model := None; scaler := None;
     country_encoder := None; field_encoder := None |}.

(** [load_model_and_encoders()].  [coef_] and [intercept_] are the weights
    that fitting the fallback regressor on the random dummy data yields.
    The [except] clause logs and raises the exception again. *)
Definition load_model_and_encoders (fs : artifact) (coef_ : list Q) (intercept_ : Q)
    (g : globals) : exn + globals :=
  let loaded : exn + model_obj :=
    match fs with
    | Stored m => inr m
    | Unreadable why => inl (OtherError why)
    | Missing => inr (SGDRegressor_fitted coef_ intercept_)
    end in
  match loaded with
  | inl e => inl e
  | inr m =>
      inr {| model := Some m;
             country_encoder := Some (LabelEncoder.fit COUNTRIES);
             field_encoder := Some (LabelEncoder.fit STEM_FIELDS);
             scaler := Some approximate_scaler |}
  end.

(** The startup event loads into the fresh globals. *)
Definition startup_event (fs : artifact) (coef_ : list Q) (intercept_ : Q)
  : exn + globals :=
  load_model_and_encoders fs coef_ intercept_ initial_globals.

Definition is_not_None {A} (o : option A) : bool :=
  match o with Some _ => true | None => false end.

(** The answer of [/health] (the timestamp is left out). *)
Inductive health : Type :=
| Report (status : string)
         (model_loaded country_encoder_ready field_encoder_ready scaler_ready : bool)
         (model_type : string)
         (ready_for_predictions : bool)
         (warning : option string)
| Failed (status : string) (error : string).

Definition status_of (h : health) : string :=
  match h with
  | Report s _ _ _ _ _ _ _ => s
  | Failed s _ => s
  end.

(** [type(model).__name__ if model else "Not loaded"]; the truth test of an
    arbitrary object may raise. *)
Definition model_type_of (mo : option model_obj) : exn + string :=
  match mo with
  | None => inr "Not loaded"
  | Some m =>
      match truth m with
      | Some true => inr (type_name m)
      | Some false => inr "Not loaded"
      | None => inl (OtherError "truth value is undefined")
      end
  end.

Definition health_check (g : globals) : health :=
  match model_type_of (model g) with
  | inl e => Failed "unhealthy" (exn_str e)
  | inr ty =>
      let ready :=
        forallb (fun b => b)
          [is_not_None (model g); is_not_None (country_encoder g);
           is_not_None (field_encoder g); is_not_None (scaler g)] in
      if negb ready then
        Report "degraded"
          (is_not_None (model g)) (is_not_None (country_encoder g))
          (is_not_None (field_encoder g)) (is_not_None (scaler g))
          ty ready (Some "Some components not fully loaded")
      else
        Report "healthy"
          (is_not_None (model g)) (is_not_None (country_encoder g))
          (is_not_None (field_encoder g)) (is_not_None (scaler g))
          ty ready None
  end.

Record input_features_t : Type := {
  f_year : Z;
  f_female_enrollment_percent : pyfloat;
  f_gender_gap_index : pyfloat;
  country_encoded : Z;
  stem_field_encoded : Z;
  country_name : string;
  stem_field_name : string
}.

(** The response of [/predict] (the timestamp and the constant entries of
    the metadata are left out). *)
Record PredictionOutput : Type := {
  predicted_graduation_rate : pyfloat;
  model_used : string;
  input_features : input_features_t;
  model_confidence : string;
  data_quality : string;
  country_rank : Z;
  field_rank : Z
}.

Definition confidence_score_of (input_data : PredictionInput) : string :=
  let confidence_score := "high" in
  let confidence_score :=
    if (year input_data >? 2025)%Z then "medium" else confidence_score in
  let confidence_score :=
    if lt (gender_gap_index input_data) (Finite 0.5) then "medium"
    else confidence_score in
  confidence_score.

Definition invalid_country (c : string) : exn :=
  HTTPException 400
    [("error", DStr "Invalid Country");
     ("message", DStr ("Country '" ++ c ++ "' not supported."));
     ("supported_countries", DList COUNTRIES);
     ("suggestion", DStr "Use the /countries endpoint to see all available options.")].

Definition invalid_stem_field (f : string) : exn :=
  HTTPException 400
    [("error", DStr "Invalid STEM Field");
     ("message", DStr ("STEM field '" ++ f ++ "' not supported."));
     ("supported_fields", DList STEM_FIELDS);
     ("suggestion", DStr "Use the /stem-fields endpoint to see all available options.")].

Definition prediction_failed (e : exn) : exn :=
  HTTPException 500
    [("error", DStr "Prediction Failed");
     ("message", DStr "An error occurred while generating the prediction.");
     ("details", DStr (exn_str e));
     ("suggestion", DStr "Please check your input parameters and try again. If the problem persists, contact support.")].

(** The body of the handler of [POST /predict]. *)
Definition predict_graduation_rate (g : globals) (input_data : PredictionInput)
  : M PredictionOutput :=
  try_except
    ((if negb (mem (country input_data) COUNTRIES)
      then raise (invalid_country (country input_data)) else ret tt) ;;;
     (if negb (mem (stem_field input_data) STEM_FIELDS)
      then raise (invalid_stem_field (stem_field input_data)) else ret tt) ;;;
     country_encoded <- encoder_transform (country_encoder g) (country input_data) ;;
     field_encoded <- encoder_transform (field_encoder g) (stem_field input_data) ;;
     let features :=
       [of_int (year input_data);
        female_enrollment_percent input_data;
        gender_gap_index input_data;
        of_int (Z.of_nat country_encoded);
        of_int (Z.of_nat field_encoded)] in
     features_scaled <- scaler_transform (scaler g) features ;;
     prediction <- model_predict (model g) features_scaled ;;
     let prediction := clamp prediction in
     let confidence_score := confidence_score_of input_data in
     ret {| predicted_graduation_rate := py_round2 prediction;
            model_used := "SGD Regressor";
            input_features :=
              {| f_year := year input_data;
                 f_female_enrollment_percent := female_enrollment_percent input_data;
                 f_gender_gap_index := gender_gap_index input_data;
                 country_encoded := Z.of_nat country_encoded;
                 stem_field_encoded := Z.of_nat field_encoded;
                 country_name := country input_data;
                 stem_field_name := stem_field input_data |};
            model_confidence := confidence_score;
            data_quality := "excellent";
            country_rank := Z.of_nat country_encoded + 1;
            field_rank := Z.of_nat field_encoded + 1 |})%py
    (fun e =>
       match e with
       | HTTPException _ _ => raise e
       | _ => raise (prediction_failed e)
       end).

(** [POST /predict]: FastAPI builds the [PredictionInput] from the body and
    answers with the validation errors, without calling the handler, when
    pydantic reports any. *)
Definition post_predict (g : globals) (body : PredictionInput) : M PredictionOutput :=
  match PredictionInput_errors body with
  | [] => predict_graduation_rate g body
  | errors => raise (RequestValidationError errors)
  end.




End Main.

(* ------------------------------------------------------------------ *)
(** ** API/prediction.py *)

Module Prediction.

Record STEMPredictionService : Type := {
  model_path : string;
  model : option model_obj;
  scaler : option scaler_obj;
  country_encoder : option LabelEncoder.t;
  field_encoder : option LabelEncoder.t;
  countries : list string;
  stem_fields : list string;
  feature_names : list string
}.

(** The attributes [__init__] sets before it loads anything. *)
Definition init_attributes (path : string) : STEMPredictionService :=
  {| model_path := path;
     model := None; scaler := None;
     country_encoder := None; field_encoder := None;
     countries := ["Australia"; "Canada"; "China"; "Germany"; "India"; "USA"];
     stem_fields := ["Biology"; "Computer Science"; "Engineering"; "Mathematics"];
     feature_names := ["Year"; "Female Enrollment (%)"; "Gender Gap Index";
                       "Country_encoded"; "STEM_field_encoded"] |}.

Definition _load_model (fs : artifact) (self : STEMPredictionService)
  : exn + STEMPredictionService :=
  match fs with
  | Stored m =>
      inr {| model_path := model_path self;
             model := Some m; scaler := scaler self;
             country_encoder := country_encoder self;
             field_encoder := field_encoder self;
             countries := countries self; stem_fields := stem_fields self;
             feature_names := feature_names self |}
  | Unreadable why => inl (OtherError why)
  | Missing => inl (FileNotFoundError ("Model file not found: " ++ model_path self))
  end.

Definition _initialize_encoders (self : STEMPredictionService) : STEMPredictionService :=
  {| model_path := model_path self;
     model := model self;
     scaler := Some approximate_scaler;
     country_encoder := Some (LabelEncoder.fit (countries self));
     field_encoder := Some (LabelEncoder.fit (stem_fields self));
     countries := countries self; stem_fields := stem_fields self;
     feature_names := feature_names self |}.

(** [STEMPredictionService(model_path)] *)
Definition new (fs : artifact) (path : string) : exn + STEMPredictionService :=
  match _load_model fs (init_attributes path) with
  | inl e => inl e
  | inr self => inr (_initialize_encoders self)
  end.

Definition validate_input (self : STEMPredictionService)
    (year : Z) (female_enrollment gender_gap_index : pyfloat)
    (country stem_field : string) : bool * string :=
  if negb ((2000 <=? year)%Z && (year <=? 2030)%Z) then
    (false, "Year must be between 2000 and 2030")
  else if negb (le (Finite 0.0) female_enrollment
                && le female_enrollment (Finite 100.0)) then
    (false, "Female enrollment percentage must be between 0 and 100")
  else if negb (le (Finite 0.0) gender_gap_index
                && le gender_gap_index (Finite 1.0)) then
    (false, "Gender Gap Index must be between 0 and 1")
  else if negb (mem country (countries self)) then
    (false, "Country '" ++ country ++ "' not supported. Available: "
            ++ repr_list (countries self))
  else if negb (mem stem_field (stem_fields self)) then
    (false, "STEM field '" ++ stem_field ++ "' not supported. Available: "
            ++ repr_list (stem_fields self))
  else (true, "").

Definition preprocess_input (self : STEMPredictionService)
    (year : Z) (female_enrollment gender_gap_index : pyfloat)
    (country stem_field : string) : M (list pyfloat * nat * nat) :=
  (country_encoded <- encoder_transform (country_encoder self) country ;;
   field_encoded <- encoder_transform (field_encoder self) stem_field ;;
   let features :=
     [of_int year; female_enrollment; gender_gap_index;
      of_int (Z.of_nat country_encoded); of_int (Z.of_nat field_encoded)] in
   features_scaled <- scaler_transform (scaler self) features ;;
   ret (features_scaled, country_encoded, field_encoded))%py.

(** The dictionary [predict] returns (the timestamp is left out). *)
Record result : Type := {
  predicted_graduation_rate : pyfloat;
  model_used : string;
  r_year : Z;
  r_female_enrollment_percent : pyfloat;
  r_gender_gap_index : pyfloat;
  r_country : string;
  r_stem_field : string;
  country_encoded : Z;
  stem_field_encoded : Z;
  r_feature_names : list string
}.

Definition predict (self : STEMPredictionService)
    (year : Z) (female_enrollment gender_gap_index : pyfloat)
    (country stem_field : string) : M result :=
  let '(is_valid, error_msg) :=
    validate_input self year female_enrollment gender_gap_index country stem_field in
  if negb is_valid then raise (ValueError error_msg)
  else
    (preprocessed <-
       preprocess_input self year female_enrollment gender_gap_index country stem_field ;;
     let '(features_scaled, country_encoded, field_encoded) := preprocessed in
     prediction <- model_predict (model self) features_scaled ;;
     let prediction := clamp prediction in
     ret {| predicted_graduation_rate := py_round2 prediction;
            model_used := "SGD Regressor";
            r_year := year;
            r_female_enrollment_percent := female_enrollment;
            r_gender_gap_index := gender_gap_index;
            r_country := country;
            r_stem_field := stem_field;
            country_encoded := Z.of_nat country_encoded;
            stem_field_encoded := Z.of_nat field_encoded;
            r_feature_names := feature_names self |})%py.

(** The dictionary [health_check] returns (the timestamp is left out). *)
Record health_report : Type := {
  model_loaded : bool;
  encoders_ready : bool;
  supported_countries : nat;
  supported_stem_fields : nat;
  model_type : option string
}.

(** [health_check(self)].  [type(self.model).__name__ if self.model else
    None] truth-tests the model and the method has no [except] clause. *)
Definition health_check (self : STEMPredictionService) : exn + health_report :=
  let ready {A} (o : option A) : bool :=
    match o with Some _ => true | None => false end in
  let model_type : exn + option string :=
    match model self with
    | None => inr None
    | Some m =>
        match truth m with
        | Some true => inr (Some (type_name m))
        | Some false => inr None
        | None => inl (OtherError "truth value is undefined")
        end
    end in
  match model_type with
  | inl e => inl e
  | inr ty =>
      inr {| model_loaded := ready (model self);
             encoders_ready :=
               forallb (fun b => b)
                 [ready (country_encoder self); ready (field_encoder self);
                  ready (scaler self)];
             supported_countries := List.length (countries self);
             supported_stem_fields := List.length (stem_fields self);
             model_type := ty |}
  end.




End Prediction.

(* ------------------------------------------------------------------ *)
(** ** API/schemas/input_schema.py *)

Module InputSchema.

Inductive CountryEnum : Type :=
| AUSTRALIA | BRAZIL | CANADA | CHINA | FRANCE | GERMANY | INDIA | JAPAN
| SOUTH_KOREA | UNITED_KINGDOM | UNITED_STATES.

Definition CountryEnum_value (c : CountryEnum) : string :=
  match c with
  | AUSTRALIA => "Australia" | BRAZIL => "Brazil" | CANADA => "Canada"
  | CHINA => "China" | FRANCE => "France" | GERMANY => "Germany"
  | INDIA => "India" | JAPAN => "Japan" | SOUTH_KOREA => "South Korea"
  | UNITED_KINGDOM => "United Kingdom" | UNITED_STATES => "United States"
  end.

Definition CountryEnum_members : list CountryEnum :=
  [AUSTRALIA; BRAZIL; CANADA; CHINA; FRANCE; GERMANY; INDIA; JAPAN;
   SOUTH_KOREA; UNITED_KINGDOM; UNITED_STATES].

Inductive STEMFieldEnum : Type :=
| BIOLOGY | COMPUTER_SCIENCE | ENGINEERING | MATHEMATICS.

Definition STEMFieldEnum_value (s : STEMFieldEnum) : string :=
  match s with
  | BIOLOGY => "Biology" | COMPUTER_SCIENCE => "Computer Science"
  | ENGINEERING => "Engineering" | MATHEMATICS => "Mathematics"
  end.

Definition STEMFieldEnum_members : list STEMFieldEnum :=
  [BIOLOGY; COMPUTER_SCIENCE; ENGINEERING; MATHEMATICS].

(** [CountryEnum(v)] and [STEMFieldEnum(v)]: the member with that value. *)
Definition CountryEnum_of (v : string) : option CountryEnum :=
  find (fun c => String.eqb (CountryEnum_value c) v) CountryEnum_members.

Definition STEMFieldEnum_of (v : string) : option STEMFieldEnum :=
  find (fun s => String.eqb (STEMFieldEnum_value s) v) STEMFieldEnum_members.

(** [round(x, 3)] *)
Definition py_round3 (x : pyfloat) : pyfloat :=
  match x with
  | Finite q => Finite (round_half_even (q * 1000) # 1000)
  | _ => x
  end.

Definition validate_enrollment (v : pyfloat) : exn + pyfloat :=
  if (lt v (Finite 0) || gt v (Finite 100))%bool then
    inl (ValueError "Female enrollment percentage must be between 0 and 100")
  else inr (py_round2 v).

Definition validate_gender_gap (v : pyfloat) : exn + pyfloat :=
  if (lt v (Finite 0) || gt v (Finite 1))%bool then
    inl (ValueError "Gender Gap Index must be between 0 and 1")
  else inr (py_round3 v).

(** One entry of the validation error of this schema. *)
Inductive schema_error : Type :=
| Constraint (e : field_error)
| NotAMember (permitted : list string).

(** A float field: the bounds of [Field] first, then the [@validator]. *)
Definition float_field (loc : string) (lo hi : Q)
    (validator : pyfloat -> exn + pyfloat) (v : pyfloat)
  : list (string * schema_error) + pyfloat :=
  match Main.number_errors loc lo hi v with
  | [] =>
      match validator v with
      | inl e => inl [(loc, Constraint (ValidatorError (exn_str e)))]
      | inr v' => inr v'
      end
  | errors => inl (map (fun '(l, e) => (l, Constraint e)) errors)
  end.

(** An enumeration field; [use_enum_values] keeps the value of the member. *)
Definition enum_field {E : Type} (loc : string) (of_value : string -> option E)
    (value : E -> string) (members : list E) (v : string)
  : list (string * schema_error) + string :=
  match of_value v with
  | Some e => inr (value e)
  | None => inl [(loc, NotAMember (map value members))]
  end.

Definition errors_of {A} (r : list (string * schema_error) + A)
  : list (string * schema_error) :=
  match r with inl errors => errors | inr _ => [] end.

(** Building a [PredictionInput] from a body: every field is validated, the errors are
    collected in the order of the declarations, and the model holds the
    validated values.  The body has the fields of [Main.PredictionInput]. *)
Definition PredictionInput (body : Main.PredictionInput)
  : list (string * schema_error) + Main.PredictionInput :=
  let year :=
    match Main.number_errors "year" 2000 2030 (of_int (Main.year body)) with
    | [] => inr (Main.year body)
    | errors => inl (map (fun '(l, e) => (l, Constraint e)) errors)
    end in
  let female_enrollment_percent :=
    float_field "female_enrollment_percent" 0.0 100.0 validate_enrollment
      (Main.female_enrollment_percent body) in
  let gender_gap_index :=
    float_field "gender_gap_index" 0.0 1.0 validate_gender_gap
      (Main.gender_gap_index body) in
  let country :=
    enum_field "country" CountryEnum_of CountryEnum_value CountryEnum_members
      (Main.country body) in
  let stem_field :=
    enum_field "stem_field" STEMFieldEnum_of STEMFieldEnum_value
      STEMFieldEnum_members (Main.stem_field body) in
  match year, female_enrollment_percent, gender_gap_index, country, stem_field with
  | inr y, inr fe, inr ggi, inr c, inr s =>
      inr {| Main.year := y;
             Main.female_enrollment_percent := fe;
             Main.gender_gap_index := ggi;
             Main.country := c;
             Main.stem_field := s |}
  | _, _, _, _, _ =>
      inl (errors_of year ++ errors_of female_enrollment_percent
           ++ errors_of gender_gap_index ++ errors_of country
           ++ errors_of stem_field)%list
  end.

End InputSchema.

(* ------------------------------------------------------------------ *)
(** ** Vocabulary of the specification *)

(** A rate is a finite number of the closed interval [0, 100]; the two
    comparisons are Python's [0.0 <= x] and [x <= 100.0]. *)
Definition within_0_100 (x : pyfloat) : Prop :=
  le (Finite 0) x = true /\ le x (Finite 100) = true.

Definition year_in_range (y : Z) : Prop := (2000 <= y <= 2030)%Z.

(** [x] is a finite float of the closed interval [lo, hi]. *)
Definition float_in_range (lo hi : Q) (x : pyfloat) : Prop :=
  exists q, x = Finite q /\ (lo <= q)%Q /\ (q <= hi)%Q.

(** An error message names the rejected value and lists the valid set. *)
Definition names_and_lists (msg v : string) (valid : list string) : Prop :=
  occurs_in v msg /\ Forall (fun l => occurs_in l msg) valid.

(** The five checks of [validate_input], in the order of the code. *)
Inductive check : Type :=
| CheckYear | CheckEnrollment | CheckGenderGap | CheckCountry | CheckStemField.

Definition position (c : check) : nat :=
  match c with
  | CheckYear => 0 | CheckEnrollment => 1 | CheckGenderGap => 2
  | CheckCountry => 3 | CheckStemField => 4
  end%nat.

(** The constraint a check enforces. *)
Definition holds (self : Prediction.STEMPredictionService) (c : check)
    (year : Z) (female_enrollment gender_gap_index : pyfloat)
    (country stem_field : string) : Prop :=
  match c with
  | CheckYear => year_in_range year
  | CheckEnrollment => float_in_range 0 100 female_enrollment
  | CheckGenderGap => float_in_range 0 1 gender_gap_index
  | CheckCountry => In country (Prediction.countries self)
  | CheckStemField => In stem_field (Prediction.stem_fields self)
  end.

(** The message of a check; it mentions the value of its own field only. *)
Definition message_of (self : Prediction.STEMPredictionService) (c : check)
    (country stem_field : string) : string :=
  match c with
  | CheckYear => "Year must be between 2000 and 2030"
  | CheckEnrollment => "Female enrollment percentage must be between 0 and 100"
  | CheckGenderGap => "Gender Gap Index must be between 0 and 1"
  | CheckCountry =>
      "Country '" ++ country ++ "' not supported. Available: "
      ++ repr_list (Prediction.countries self)
  | CheckStemField =>
      "STEM field '" ++ stem_field ++ "' not supported. Available: "
      ++ repr_list (Prediction.stem_fields self)
  end.

(** [k] is the first check that fails. *)
Definition first_failure (self : Prediction.STEMPredictionService) (k : check)
    (year : Z) (female_enrollment gender_gap_index : pyfloat)
    (country stem_field : string) : Prop :=
  ~ holds self k year female_enrollment gender_gap_index country stem_field
  /\ forall j, (position j < position k)%nat ->
       holds self j year female_enrollment gender_gap_index country stem_field.

(** An exception that is not an [HTTPException]. *)
Definition plain (e : exn) : Prop := forall s d, e <> HTTPException s d.

(** The request of the example scenario of the specification. *)
Definition example_request : Main.PredictionInput :=
  {| Main.year := 2024;
     Main.female_enrollment_percent := Finite 45.5;
     Main.gender_gap_index := Finite 0.75;
     Main.country := "United States";
     Main.stem_field := "Computer Science" |}.

(** A regressor artifact for the examples: a linear model. *)
Definition example_model : model_obj :=
  SGDRegressor_fitted [0.8; 12.5; 9.0; -0.4; 1.1]%Q 61.3%Q.

(** An artifact that unpickles to a random forest that was never fitted.
    The length of an ensemble is that of its [estimators_], an attribute
    that does not exist yet: the truth test raises, and so does [predict]. *)
Definition unfitted_forest : model_obj :=
  {| truth := None;
     type_name := "RandomForestRegressor";
     predict0 := fun _ => None |}.

(** The regressor answers on every vector of five features. *)
Definition answers (m : model_obj) : Prop :=
  forall x, List.length x = 5%nat -> predict0 m x <> None.

(** The globals of [main.py] once [m] has been loaded. *)
Definition globals_with (m : model_obj) : Main.globals :=
  {| Main.model := Some m;
     Main.scaler := Some approximate_scaler;
     Main.country_encoder := Some (LabelEncoder.fit Main.COUNTRIES);
     Main.field_encoder := Some (LabelEncoder.fit Main.STEM_FIELDS) |}.

(** The service of [prediction.py] once [m] has been loaded. *)
Definition service_with (m : model_obj) : Prediction.STEMPredictionService :=
  Prediction._initialize_encoders
    {| Prediction.model_path := "model/best_model.pkl";
       Prediction.model := Some m;
       Prediction.scaler := None;
       Prediction.country_encoder := None;
       Prediction.field_encoder := None;
       Prediction.countries :=
         Prediction.countries (Prediction.init_attributes "model/best_model.pkl");
       Prediction.stem_fields :=
         Prediction.stem_fields (Prediction.init_attributes "model/best_model.pkl");
       Prediction.feature_names :=
         Prediction.feature_names (Prediction.init_attributes "model/best_model.pkl") |}.

(* ------------------------------------------------------------------ *)
(** ** Facts about floats: clamping and rounding *)

Section FloatFacts.

Lemma Qle_bool_false (x y : Q) : Qle_bool x y = false -> (y < x)%Q.
Proof.
  intros H. apply Qnot_le_lt. intros L.
  apply Qle_bool_iff in L. congruence.
Qed.

Lemma clamp_within (p : pyfloat) : within_0_100 (clamp p).
Proof.
  unfold within_0_100, clamp, py_max, py_min, gt.
  destruct p as [q | | |]; try (split; reflexivity).
  cbn [lt].
  destruct (Qle_bool 100.0 q) eqn:Hhi; cbn [negb].
  - split; reflexivity.
  - cbn [lt]. destruct (Qle_bool q 0.0) eqn:Hlo; cbn [negb].
    + split; reflexivity.
    + apply Qle_bool_false in Hhi, Hlo.
      split; cbn [le]; apply Qle_bool_iff; lra.
Qed.

Lemma round_half_even_bounds (q : Q) (lo hi : Z) :
  (inject_Z lo <= q)%Q -> (q <= inject_Z hi)%Q ->
  (lo <= round_half_even q <= hi)%Z.
Proof.
  intros Hlo Hhi.
  assert (Hf1 : (lo <= Qfloor q)%Z).
  { rewrite <- (Qfloor_Z lo). now apply Qfloor_resp_le. }
  assert (Hf2 : (Qfloor q <= hi)%Z).
  { rewrite <- (Qfloor_Z hi). now apply Qfloor_resp_le. }
  unfold round_half_even.
  assert (Hstep : (Qfloor q = hi -> q - inject_Z (Qfloor q) < 1 # 2)%Q).
  { intros E. rewrite E. lra. }
  destruct (Qcompare_spec (q - inject_Z (Qfloor q)) (1 # 2)) as [E | L | G].
  - destruct (Z.even (Qfloor q)); [lia |].
    destruct (Z.eq_dec (Qfloor q) hi) as [E' | N]; [| lia].
    apply Hstep in E'. rewrite E in E'. discriminate.
  - lia.
  - destruct (Z.eq_dec (Qfloor q) hi) as [E' | N]; [| lia].
    apply Hstep in E'. lra.
Qed.

Lemma py_round2_within (x : pyfloat) : within_0_100 x -> within_0_100 (py_round2 x).
Proof.
  unfold within_0_100.
  destruct x as [q | | |]; cbn [py_round2 le]; try (intros [? ?]; discriminate).
  intros [H0 H1]. apply Qle_bool_iff in H0, H1.
  destruct (round_half_even_bounds (q * 100) 0 10000) as [A B].
  - change (inject_Z 0) with 0%Q. lra.
  - change (inject_Z 10000) with (10000#1)%Q. lra.
  - split; apply Qle_bool_iff; unfold Qle; cbn; lia.
Qed.

Lemma le_in_range (lo hi : Q) (x : pyfloat) :
  (le (Finite lo) x && le x (Finite hi))%bool = true <-> float_in_range lo hi x.
Proof.
  unfold float_in_range. split.
  - destruct x as [q | | |]; cbn [le]; intros H;
      apply andb_true_iff in H as [H1 H2]; try discriminate.
    apply Qle_bool_iff in H1, H2. now exists q.
  - intros (q & -> & H1 & H2). cbn [le].
    apply andb_true_iff. split; now apply Qle_bool_iff.
Qed.

Lemma float_in_range_compat (lo hi lo' hi' : Q) (x : pyfloat) :
  (lo == lo')%Q -> (hi == hi')%Q ->
  float_in_range lo hi x <-> float_in_range lo' hi' x.
Proof.
  intros E1 E2. unfold float_in_range.
  split; intros (q & -> & H1 & H2); exists q; repeat split; lra.
Qed.

Lemma lt_Finite (a b : Q) : lt (Finite a) (Finite b) = true <-> (a < b)%Q.
Proof.
  cbn [lt]. split.
  - intros H. apply negb_true_iff in H. now apply Qle_bool_false.
  - intros H. apply negb_true_iff.
    destruct (Qle_bool b a) eqn:E; [| reflexivity].
    apply Qle_bool_iff in E. lra.
Qed.

End FloatFacts.

(* ------------------------------------------------------------------ *)
(** ** Facts about the monad and the collaborators *)

Section MonadFacts.

Lemma bind_inr {A B} (m : M A) (k : A -> M B) tr b tr' :
  bind m k tr = (inr b, tr') ->
  exists a tr1, m tr = (inr a, tr1) /\ k a tr1 = (inr b, tr').
Proof.
  unfold bind. destruct (m tr) as [[e | a] tr1]; [discriminate |].
  intros H. now exists a, tr1.
Qed.

Lemma try_except_inr {A} (m : M A) (h : exn -> M A) tr a tr' :
  (forall e t x t', h e t <> (inr x, t')) ->
  try_except m h tr = (inr a, tr') -> m tr = (inr a, tr').
Proof.
  unfold try_except. intros Hh.
  destruct (m tr) as [[e | x] tr1]; [| trivial].
  intros H. now apply Hh in H.
Qed.

Lemma encoder_transform_inr enc v tr i tr' :
  encoder_transform enc v tr = (inr i, tr') ->
  exists e, enc = Some e /\ LabelEncoder.transform e v = Some i
            /\ tr' = (tr ++ [EncoderTransform (LabelEncoder.classes_ e) v])%list.
Proof.
  unfold encoder_transform. destruct enc as [e |]; [| discriminate].
  unfold bind, tell, ret, raise.
  destruct (LabelEncoder.transform e v) as [j |] eqn:E; [| discriminate].
  intros H; inversion H; subst. exists e. auto.
Qed.

Lemma scaler_transform_inr sc x tr y tr' :
  scaler_transform sc x tr = (inr y, tr') ->
  exists s, sc = Some s /\ standardize s x = Some y
            /\ tr' = (tr ++ [ScalerTransform x])%list.
Proof.
  unfold scaler_transform. destruct sc as [s |]; [| discriminate].
  unfold bind, tell, ret, raise.
  destruct (standardize s x) as [z |] eqn:E; [| discriminate].
  intros H; inversion H; subst. exists s. auto.
Qed.

Lemma model_predict_inr mo x tr y tr' :
  model_predict mo x tr = (inr y, tr') ->
  exists m, mo = Some m /\ predict0 m x = Some y
            /\ tr' = (tr ++ [ModelPredict x])%list.
Proof.
  unfold model_predict. destruct mo as [m |]; [| discriminate].
  unfold bind, tell, ret, raise.
  destruct (predict0 m x) as [z |] eqn:E; [| discriminate].
  intros H; inversion H; subst. exists m. auto.
Qed.

End MonadFacts.

(* ------------------------------------------------------------------ *)
(** ** Facts about the label encoder *)

Module LabelEncoderFacts.
Import LabelEncoder.

Lemma slt_trans a b c : slt a b -> slt b c -> slt a c.
Proof.
  unfold slt. intros H1 H2.
  apply String_as_OT.cmp_lt in H1, H2. apply String_as_OT.cmp_lt.
  eapply String_as_OT.lt_trans; eassumption.
Qed.

Lemma compare_refl a : String.compare a a = Eq.
Proof.
  induction a as [| c a IH]; cbn; [reflexivity |].
  unfold Ascii.compare. now rewrite N.compare_refl.
Qed.

Lemma slt_irrefl a : ~ slt a a.
Proof. unfold slt. rewrite compare_refl. discriminate. Qed.

Lemma compare_Gt_slt a b : String.compare a b = Gt -> slt b a.
Proof.
  unfold slt. intros H. rewrite String.compare_antisym, H. reflexivity.
Qed.

Lemma slt_asym a b : slt a b -> ~ slt b a.
Proof. intros H1 H2. exact (slt_irrefl a (slt_trans _ _ _ H1 H2)). Qed.

Lemma ltb_slt a b : String.ltb a b = true <-> slt a b.
Proof.
  unfold String.ltb, slt. destruct (String.compare a b); split; congruence.
Qed.

Lemma insert_In x l z : In z (insert x l) <-> z = x \/ In z l.
Proof.
  induction l as [| y t IH]; cbn.
  - intuition.
  - destruct (String.compare x y) eqn:E; cbn.
    + apply String.compare_eq_iff in E. subst. intuition.
    + intuition.
    + rewrite IH. intuition.
Qed.

Lemma insert_sorted x l :
  StronglySorted slt l -> StronglySorted slt (insert x l).
Proof.
  induction 1 as [| y t Ht IH Hy]; cbn.
  - repeat constructor.
  - destruct (String.compare x y) eqn:E.
    + now constructor.
    + constructor; [now constructor |].
      constructor; [exact E |].
      eapply Forall_impl; [| exact Hy]. intros z Hz. eapply slt_trans; eassumption.
    + constructor; [exact IH |].
      apply Forall_forall. intros z Hz. apply insert_In in Hz as [-> | Hz].
      * now apply compare_Gt_slt.
      * rewrite Forall_forall in Hy. now apply Hy.
Qed.

Lemma unique_In l z : In z (unique l) <-> In z l.
Proof.
  induction l as [| x t IH]; cbn; [tauto |].
  rewrite insert_In, IH. intuition.
Qed.

Lemma unique_sorted l : StronglySorted slt (unique l).
Proof.
  induction l as [| x t IH]; cbn; [constructor | now apply insert_sorted].
Qed.

Lemma sorted_NoDup l : StronglySorted slt l -> NoDup l.
Proof.
  induction 1 as [| y t Ht IH Hy]; constructor; [| exact IH].
  intros Hin. rewrite Forall_forall in Hy. exact (slt_irrefl y (Hy y Hin)).
Qed.

Lemma sorted_ext l l' :
  StronglySorted slt l -> StronglySorted slt l' ->
  (forall x, In x l <-> In x l') -> l = l'.
Proof.
  intros Hl. revert l'.
  induction Hl as [| a t Ht IH Ha]; intros l' Hl' Hext.
  - destruct l' as [| b t']; [reflexivity |].
    destruct (proj2 (Hext b) (or_introl eq_refl)).
  - destruct Hl' as [| b t' Ht' Hb].
    + destruct (proj1 (Hext a) (or_introl eq_refl)).
    + rewrite Forall_forall in Ha, Hb.
      assert (Eab : a = b).
      { destruct (proj1 (Hext a) (or_introl eq_refl)) as [E | Hin]; [now subst |].
        destruct (proj2 (Hext b) (or_introl eq_refl)) as [E | Hin']; [now subst |].
        destruct (slt_asym _ _ (Ha _ Hin') (Hb _ Hin)). }
      subst b. f_equal. apply IH; [exact Ht' |].
      intros x; split; intros Hx.
      * destruct (proj1 (Hext x) (or_intror Hx)) as [E | Hin]; [| exact Hin].
        subst x. destruct (slt_irrefl _ (Ha _ Hx)).
      * destruct (proj2 (Hext x) (or_intror Hx)) as [E | Hin]; [| exact Hin].
        subst x. destruct (slt_irrefl _ (Hb _ Hx)).
Qed.

Lemma unique_ext l l' : (forall x, In x l <-> In x l') -> unique l = unique l'.
Proof.
  intros H. apply sorted_ext; try apply unique_sorted.
  intros x. rewrite !unique_In. apply H.
Qed.

Lemma filter_none {A} (p : A -> bool) (l : list A) :
  (forall x, In x l -> p x = false) -> filter p l = [].
Proof.
  induction l as [| y t IH]; intros H; cbn; [reflexivity |].
  rewrite (H y (or_introl eq_refl)). apply IH. intros x Hx. apply H. now right.
Qed.

Lemma index_of_sorted v l :
  StronglySorted slt l -> In v l ->
  index_of v l = Some (List.length (filter (fun x => String.ltb x v) l)).
Proof.
  induction 1 as [| y t Ht IH Hy]; intros Hin; [destruct Hin |].
  rewrite Forall_forall in Hy. cbn [index_of filter].
  destruct (String.eqb_spec v y) as [-> | Hne].
  - assert (E : String.ltb y y = false).
    { destruct (String.ltb y y) eqn:E; [| reflexivity].
      apply ltb_slt in E. destruct (slt_irrefl _ E). }
    rewrite E. f_equal.
    rewrite filter_none; [reflexivity |]. intros x Hx.
    destruct (String.ltb x y) eqn:E'; [| reflexivity].
    apply ltb_slt in E'. destruct (slt_asym _ _ E' (Hy _ Hx)).
  - destruct Hin as [E | Hin]; [congruence |].
    rewrite (proj2 (ltb_slt y v) (Hy _ Hin)). rewrite (IH Hin). reflexivity.
Qed.

Lemma index_of_nth v l i : index_of v l = Some i -> nth_error l i = Some v.
Proof.
  revert i. induction l as [| y t IH]; intros i; cbn; [discriminate |].
  destruct (String.eqb_spec v y) as [-> | Hne].
  - intros H; inversion H; reflexivity.
  - destruct (index_of v t) as [j |]; cbn; [| discriminate].
    intros H; inversion H; subst. cbn. now apply IH.
Qed.

Lemma index_of_In v l : In v l -> exists i, index_of v l = Some i.
Proof.
  induction l as [| y t IH]; intros Hin; [destruct Hin |]. cbn.
  destruct (String.eqb_spec v y) as [-> | Hne]; [now exists O |].
  destruct Hin as [E | Hin]; [congruence |].
  destruct (IH Hin) as [i ->]. now exists (S i).
Qed.

Lemma rank_filter_unique l v :
  List.length (filter (fun x => String.ltb x v) (unique l)) = rank l v.
Proof.
  unfold rank. apply Permutation_length. apply NoDup_Permutation.
  - apply NoDup_filter, sorted_NoDup, unique_sorted.
  - apply NoDup_nodup.
  - intros x. rewrite nodup_In, !filter_In, unique_In. tauto.
Qed.

Lemma transform_fit_rank l v :
  In v l -> transform (fit l) v = Some (rank l v).
Proof.
  intros Hin. unfold transform, fit; cbn [classes_].
  rewrite index_of_sorted; [| apply unique_sorted | now apply unique_In].
  now rewrite rank_filter_unique.
Qed.

End LabelEncoderFacts.

(* ------------------------------------------------------------------ *)
(** ** Facts about strings *)

Section StringFacts.

Lemma append_assoc (a b c : string) : (a ++ b) ++ c = a ++ (b ++ c).
Proof. induction a as [| x a IH]; cbn; [reflexivity | now rewrite IH]. Qed.

Lemma prefix_append (n p : string) : String.prefix n (n ++ p) = true.
Proof.
  induction n as [| x n IH]; cbn; [now destruct p |].
  destruct (Ascii.ascii_dec x x) as [_ | N]; [exact IH | now destruct N].
Qed.

Lemma prefix_split (n h : string) :
  String.prefix n h = true -> exists post, h = n ++ post.
Proof.
  revert h. induction n as [| x n IH]; intros h.
  - intros _. now exists h.
  - destruct h as [| y h]; cbn; [discriminate |].
    destruct (Ascii.ascii_dec x y) as [-> | N]; [| discriminate].
    intros H. destruct (IH _ H) as [post ->]. now exists post.
Qed.

Lemma contains_occurs (n h : string) : contains n h = true <-> occurs_in n h.
Proof.
  unfold occurs_in. split.
  - induction h as [| y h IH]; cbn [contains]; intros H;
      apply orb_true_iff in H as [H | H]; try discriminate.
    + destruct (prefix_split _ _ H) as [post E]. now exists "", post.
    + destruct (prefix_split _ _ H) as [post E]. now exists "", post.
    + destruct (IH H) as (pre & post & ->). now exists (String y pre), post.
  - intros (pre & post & ->).
    induction pre as [| y pre IH]; cbn [append].
    + destruct (n ++ post) eqn:E; cbn [contains]; rewrite <- E, prefix_append;
        reflexivity.
    + cbn [contains]. rewrite IH. apply orb_true_r.
Qed.

Lemma occurs_in_middle (a v b : string) : occurs_in v (a ++ v ++ b).
Proof. now exists a, b. Qed.

Lemma occurs_in_append_r (x a b : string) : occurs_in x b -> occurs_in x (a ++ b).
Proof.
  intros (pre & post & ->). exists (a ++ pre), post. now rewrite append_assoc.
Qed.

Lemma occurs_in_append_l (x a b : string) : occurs_in x a -> occurs_in x (a ++ b).
Proof.
  intros (pre & post & ->). exists pre, (post ++ b).
  now rewrite !append_assoc.
Qed.

Lemma mem_In (v : string) (l : list string) : mem v l = true <-> In v l.
Proof.
  unfold mem. rewrite existsb_exists. split.
  - intros (x & Hx & E). apply String.eqb_eq in E. now subst.
  - intros H. exists v. split; [exact H | apply String.eqb_refl].
Qed.

Lemma mem_false (v : string) (l : list string) : mem v l = false <-> ~ In v l.
Proof.
  rewrite <- mem_In. destruct (mem v l); split; congruence.
Qed.

End StringFacts.

(* ------------------------------------------------------------------ *)
(** ** Successful calls on the collaborators *)

Section CollaboratorFacts.

Lemma encoder_transform_fit (l : list string) (v : string) (tr : list call) :
  In v l ->
  encoder_transform (Some (LabelEncoder.fit l)) v tr
  = (inr (LabelEncoder.rank l v),
     (tr ++ [EncoderTransform (LabelEncoder.unique l) v])%list).
Proof.
  intros Hin. unfold encoder_transform, bind, tell, ret.
  now rewrite (LabelEncoderFacts.transform_fit_rank l v Hin).
Qed.

Lemma model_predict_Some (m : model_obj) (x : list pyfloat) (raw : pyfloat)
    (tr : list call) :
  predict0 m x = Some raw ->
  model_predict (Some m) x tr = (inr raw, (tr ++ [ModelPredict x])%list).
Proof.
  intros H. unfold model_predict, bind, tell, ret. now rewrite H.
Qed.

Lemma standardize_length (s : scaler_obj) (x y : list pyfloat) :
  standardize s x = Some y -> List.length y = List.length x.
Proof.
  unfold standardize.
  destruct (Nat.eqb (List.length x) (List.length (mean_ s))) eqn:E1; [| discriminate].
  destruct (Nat.eqb (List.length x) (List.length (scale_ s))) eqn:E2; [| discriminate].
  cbn [andb]. intros H; inversion H; subst.
  apply Nat.eqb_eq in E1, E2.
  rewrite length_map, length_combine, length_combine. lia.
Qed.

Lemma scaler_transform_five (a b c d e : pyfloat) (tr : list call) :
  exists y,
    List.length y = 5%nat
    /\ scaler_transform (Some approximate_scaler) [a; b; c; d; e] tr
       = (inr y, (tr ++ [ScalerTransform [a; b; c; d; e]])%list).
Proof.
  unfold scaler_transform, bind, tell, ret.
  destruct (standardize approximate_scaler [a; b; c; d; e]) as [y |] eqn:E.
  - exists y. split; [| reflexivity]. now apply standardize_length in E.
  - discriminate E.
Qed.

End CollaboratorFacts.

(* ------------------------------------------------------------------ *)
(** ** Facts about API/main.py *)

Module MainFacts.
Import Main.

Lemma number_errors_nil (loc : string) (lo hi : Q) (v : pyfloat) :
  number_errors loc lo hi v = [] <-> float_in_range lo hi v.
Proof.
  rewrite <- le_in_range. unfold number_errors, ge.
  destruct (le (Finite lo) v), (le v (Finite hi)); cbn; split;
    congruence.
Qed.

Lemma number_errors_cons (loc : string) (lo hi : Q) (v : pyfloat) :
  ~ float_in_range lo hi v ->
  exists e, number_errors loc lo hi v = [(loc, e)].
Proof.
  rewrite <- le_in_range. unfold number_errors, ge.
  destruct (le (Finite lo) v), (le v (Finite hi)); cbn; intros H.
  - now destruct H.
  - now exists (NotLe hi).
  - now exists (NotGe lo).
  - now exists (NotGe lo).
Qed.

Lemma of_int_in_range (y : Z) :
  float_in_range 2000 2030 (of_int y) <-> year_in_range y.
Proof.
  unfold float_in_range, year_in_range, of_int. split.
  - intros (q & E & H1 & H2). inversion E; subst.
    unfold Qle in H1, H2. cbn in H1, H2. lia.
  - intros H. exists (inject_Z y). repeat split; unfold Qle; cbn; lia.
Qed.

Lemma validate_country_errors (v : string) :
  validator_errors "country" (validate_country v) = [] <-> In v COUNTRIES.
Proof.
  unfold validate_country. change supported_countries with COUNTRIES.
  rewrite <- mem_In.
  destruct (mem v COUNTRIES); cbn; split; congruence.
Qed.

Lemma validate_stem_field_errors (v : string) :
  validator_errors "stem_field" (validate_stem_field v) = [] <-> In v STEM_FIELDS.
Proof.
  unfold validate_stem_field. change supported_fields with STEM_FIELDS.
  rewrite <- mem_In.
  destruct (mem v STEM_FIELDS); cbn; split; congruence.
Qed.

(** A body is accepted by pydantic exactly when its five fields are valid. *)
Lemma PredictionInput_errors_nil (body : PredictionInput) :
  PredictionInput_errors body = [] <->
  year_in_range (year body)
  /\ float_in_range 0 100 (female_enrollment_percent body)
  /\ float_in_range 0 1 (gender_gap_index body)
  /\ In (country body) COUNTRIES
  /\ In (stem_field body) STEM_FIELDS.
Proof.
  unfold PredictionInput_errors.
  rewrite <- of_int_in_range, <- validate_country_errors,
    <- validate_stem_field_errors.
  rewrite (float_in_range_compat 0 100 0.0 100.0) by reflexivity.
  rewrite (float_in_range_compat 0 1 0.0 1.0) by reflexivity.
  rewrite <- (number_errors_nil "year"),
    <- (number_errors_nil "female_enrollment_percent"),
    <- (number_errors_nil "gender_gap_index").
  split.
  - intros H.
    apply app_eq_nil in H as [H1 H]. apply app_eq_nil in H as [H2 H].
    apply app_eq_nil in H as [H3 H]. apply app_eq_nil in H as [H4 H5].
    auto.
  - intros (H1 & H2 & H3 & H4 & H5).
    now rewrite H1, H2, H3, H4, H5.
Qed.

Lemma startup_event_globals (fs : artifact) (coef_ : list Q) (intercept_ : Q)
    (g : globals) :
  startup_event fs coef_ intercept_ = inr g ->
  exists m,
    g = {| model := Some m;
           scaler := Some approximate_scaler;
           country_encoder := Some (LabelEncoder.fit COUNTRIES);
           field_encoder := Some (LabelEncoder.fit STEM_FIELDS) |}
    /\ (fs = Stored m
        \/ (fs = Missing /\ m = SGDRegressor_fitted coef_ intercept_)).
Proof.
  unfold startup_event, load_model_and_encoders.
  destruct fs as [| why | m]; intros H; inversion H; subst; eauto.
Qed.

End MainFacts.

Module HandlerFacts.
Import Main.

(** What a successful run of the handler has done. *)
Lemma predict_graduation_rate_inr (g : globals) (d : PredictionInput)
    (tr : list call) (out : PredictionOutput) (tr' : list call) :
  predict_graduation_rate g d tr = (inr out, tr') ->
  exists raw,
    predicted_graduation_rate out = py_round2 (clamp raw)
    /\ model_confidence out = confidence_score_of d.
Proof.
  unfold predict_graduation_rate. intros H.
  apply try_except_inr in H.
  2:{ intros e t x t'. destruct e; discriminate. }
  apply bind_inr in H as (u1 & t1 & _ & H).
  apply bind_inr in H as (u2 & t2 & _ & H).
  apply bind_inr in H as (ce & t3 & _ & H).
  apply bind_inr in H as (fe & t4 & _ & H).
  apply bind_inr in H as (sc & t5 & _ & H).
  apply bind_inr in H as (raw & t6 & _ & H).
  unfold ret in H. inversion H; subst. exists raw. split; reflexivity.
Qed.

Lemma post_predict_inr (g : globals) (d : PredictionInput)
    (tr : list call) (out : PredictionOutput) (tr' : list call) :
  post_predict g d tr = (inr out, tr') ->
  PredictionInput_errors d = []
  /\ exists raw,
       predicted_graduation_rate out = py_round2 (clamp raw)
       /\ model_confidence out = confidence_score_of d.
Proof.
  unfold post_predict.
  destruct (PredictionInput_errors d) as [| e es]; [| discriminate].
  intros H. split; [reflexivity |]. eapply predict_graduation_rate_inr, H.
Qed.

(** After a startup, a valid request is answered whenever the regressor
    answers on vectors of five features. *)
Lemma post_predict_returns (fs : artifact) (coef_ : list Q) (intercept_ : Q)
    (g : globals) (m : model_obj) (d : PredictionInput) (tr : list call) :
  startup_event fs coef_ intercept_ = inr g ->
  model g = Some m ->
  (forall x, List.length x = 5%nat -> predict0 m x <> None) ->
  PredictionInput_errors d = [] ->
  exists x raw out tr',
    predict0 m x = Some raw
    /\ post_predict g d tr = (inr out, tr')
    /\ predicted_graduation_rate out = py_round2 (clamp raw)
    /\ model_confidence out = confidence_score_of d
    /\ country_encoded (input_features out)
       = Z.of_nat (LabelEncoder.rank COUNTRIES (country d))
    /\ stem_field_encoded (input_features out)
       = Z.of_nat (LabelEncoder.rank STEM_FIELDS (stem_field d))
    /\ country_name (input_features out) = country d.
Proof.
  intros Hstart Hm Hans Hvalid.
  apply MainFacts.startup_event_globals in Hstart as (m' & -> & _).
  cbn [model] in Hm. inversion Hm; subst m'. clear Hm.
  unfold post_predict. rewrite Hvalid.
  apply MainFacts.PredictionInput_errors_nil in Hvalid
    as (_ & _ & _ & Hc & Hf).
  unfold predict_graduation_rate, try_except, bind at 1.
  rewrite (proj2 (mem_In _ _) Hc). cbn [negb ret].
  unfold bind at 1. rewrite (proj2 (mem_In _ _) Hf). cbn [negb ret].
  unfold bind at 1. cbn [country_encoder field_encoder scaler model].
  rewrite (encoder_transform_fit _ _ _ Hc).
  unfold bind at 1. rewrite (encoder_transform_fit _ _ _ Hf).
  unfold bind at 1.
  match goal with
  | |- context [scaler_transform _ [?a; ?b; ?c; ?d; ?e] ?t] =>
      destruct (scaler_transform_five a b c d e t) as (y & Hlen & ->)
  end.
  destruct (predict0 m y) as [raw |] eqn:Hraw; [| now destruct (Hans y Hlen)].
  unfold bind at 1. rewrite (model_predict_Some _ _ _ _ Hraw).
  unfold ret. do 4 eexists. split; [exact Hraw |].
  split; [reflexivity |]. cbn. repeat split; reflexivity.
Qed.

(** A body with validation errors never reaches the handler. *)
Lemma post_predict_rejects (g : globals) (d : PredictionInput) (tr : list call) :
  PredictionInput_errors d <> [] ->
  post_predict g d tr
  = (inl (RequestValidationError (PredictionInput_errors d)), tr).
Proof.
  unfold post_predict. destruct (PredictionInput_errors d); [congruence |].
  reflexivity.
Qed.

End HandlerFacts.

(* ------------------------------------------------------------------ *)
(** ** Facts about API/prediction.py *)

Module ServiceFacts.
Import Prediction.

Lemma year_test (y : Z) :
  ((2000 <=? y)%Z && (y <=? 2030)%Z)%bool = true <-> year_in_range y.
Proof. unfold year_in_range. rewrite andb_true_iff, !Z.leb_le. tauto. Qed.

Lemma enrollment_test (x : pyfloat) :
  (le (Finite 0.0) x && le x (Finite 100.0))%bool = true
  <-> float_in_range 0 100 x.
Proof.
  rewrite le_in_range. apply float_in_range_compat; reflexivity.
Qed.

Lemma gender_gap_test (x : pyfloat) :
  (le (Finite 0.0) x && le x (Finite 1.0))%bool = true
  <-> float_in_range 0 1 x.
Proof.
  rewrite le_in_range. apply float_in_range_compat; reflexivity.
Qed.

Lemma test_false (b : bool) (P : Prop) : (b = true <-> P) -> b = false -> ~ P.
Proof. intros H E HP. apply H in HP. congruence. Qed.

(** The checks are tried in order and the first failure decides. *)
Lemma validate_input_cases (self : STEMPredictionService)
    (y : Z) (fe ggi : pyfloat) (c f : string) :
  let ok k := holds self k y fe ggi c f in
  let answer := validate_input self y fe ggi c f in
  (~ ok CheckYear /\ answer = (false, message_of self CheckYear c f))
  \/ (ok CheckYear /\ ~ ok CheckEnrollment
      /\ answer = (false, message_of self CheckEnrollment c f))
  \/ (ok CheckYear /\ ok CheckEnrollment /\ ~ ok CheckGenderGap
      /\ answer = (false, message_of self CheckGenderGap c f))
  \/ (ok CheckYear /\ ok CheckEnrollment /\ ok CheckGenderGap
      /\ ~ ok CheckCountry
      /\ answer = (false, message_of self CheckCountry c f))
  \/ (ok CheckYear /\ ok CheckEnrollment /\ ok CheckGenderGap
      /\ ok CheckCountry /\ ~ ok CheckStemField
      /\ answer = (false, message_of self CheckStemField c f))
  \/ (ok CheckYear /\ ok CheckEnrollment /\ ok CheckGenderGap
      /\ ok CheckCountry /\ ok CheckStemField /\ answer = (true, "")).
Proof.
  cbv zeta. unfold validate_input, holds, message_of.
  destruct ((2000 <=? y)%Z && (y <=? 2030)%Z)%bool eqn:E1; cbn [negb].
  2:{ left. split; [exact (test_false _ _ (year_test y) E1) | reflexivity]. }
  apply year_test in E1. right.
  destruct (le (Finite 0.0) fe && le fe (Finite 100.0))%bool eqn:E2; cbn [negb].
  2:{ left. split; [exact E1 |].
      split; [exact (test_false _ _ (enrollment_test fe) E2) | reflexivity]. }
  apply enrollment_test in E2. right.
  destruct (le (Finite 0.0) ggi && le ggi (Finite 1.0))%bool eqn:E3; cbn [negb].
  2:{ left. split; [exact E1 |]. split; [exact E2 |].
      split; [exact (test_false _ _ (gender_gap_test ggi) E3) | reflexivity]. }
  apply gender_gap_test in E3. right.
  destruct (mem c (countries self)) eqn:E4; cbn [negb].
  2:{ left. split; [exact E1 |]. split; [exact E2 |]. split; [exact E3 |].
      split; [now apply mem_false | reflexivity]. }
  apply mem_In in E4. right.
  destruct (mem f (stem_fields self)) eqn:E5; cbn [negb].
  2:{ left. split; [exact E1 |]. split; [exact E2 |]. split; [exact E3 |].
      split; [exact E4 |]. split; [now apply mem_false | reflexivity]. }
  apply mem_In in E5. right. auto 10.
Qed.

Lemma validate_input_true (self : STEMPredictionService)
    (y : Z) (fe ggi : pyfloat) (c f : string) :
  fst (validate_input self y fe ggi c f) = true ->
  validate_input self y fe ggi c f = (true, "")
  /\ forall k, holds self k y fe ggi c f.
Proof.
  intros H.
  destruct (validate_input_cases self y fe ggi c f)
    as [(_ & E) | [(_ & _ & E) | [(_ & _ & _ & E) | [(_ & _ & _ & _ & E)
       | [(_ & _ & _ & _ & _ & E) | (H1 & H2 & H3 & H4 & H5 & E)]]]]];
    rewrite E in H; try discriminate H.
  split; [exact E |]. intros []; assumption.
Qed.

Lemma new_service (fs : artifact) (path : string) (self : STEMPredictionService) :
  new fs path = inr self ->
  exists m,
    fs = Stored m
    /\ self = {| model_path := path;
                 model := Some m;
                 scaler := Some approximate_scaler;
                 country_encoder :=
                   Some (LabelEncoder.fit (countries (init_attributes path)));
                 field_encoder :=
                   Some (LabelEncoder.fit (stem_fields (init_attributes path)));
                 countries := countries (init_attributes path);
                 stem_fields := stem_fields (init_attributes path);
                 feature_names := feature_names (init_attributes path) |}.
Proof.
  unfold new, _load_model.
  destruct fs as [| why | m]; intros H; inversion H; subst. now exists m.
Qed.

(** What a successful run of [predict] has done. *)
Lemma predict_inr (self : STEMPredictionService)
    (y : Z) (fe ggi : pyfloat) (c f : string)
    (tr : list call) (out : result) (tr' : list call) :
  predict self y fe ggi c f tr = (inr out, tr') ->
  fst (validate_input self y fe ggi c f) = true
  /\ exists raw, predicted_graduation_rate out = py_round2 (clamp raw).
Proof.
  unfold predict.
  destruct (validate_input self y fe ggi c f) as [[|] msg]; cbn [negb fst];
    [| discriminate].
  intros H. split; [reflexivity |].
  apply bind_inr in H as ([[sc ce] fe'] & t1 & _ & H).
  apply bind_inr in H as (raw & t2 & _ & H).
  unfold ret in H. inversion H; subst. now exists raw.
Qed.

(** An invalid request is refused before anything is called. *)
Lemma predict_rejects (self : STEMPredictionService)
    (y : Z) (fe ggi : pyfloat) (c f : string) (tr : list call) :
  fst (validate_input self y fe ggi c f) = false ->
  predict self y fe ggi c f tr
  = (inl (ValueError (snd (validate_input self y fe ggi c f))), tr).
Proof.
  unfold predict.
  destruct (validate_input self y fe ggi c f) as [[|] msg]; cbn [negb fst snd];
    [discriminate | reflexivity].
Qed.

(** A constructed service encodes and scales every validated request. *)
Lemma preprocess_input_returns (fs : artifact) (path : string)
    (self : STEMPredictionService)
    (y : Z) (fe ggi : pyfloat) (c f : string) (tr : list call) :
  new fs path = inr self ->
  fst (validate_input self y fe ggi c f) = true ->
  exists x tr',
    List.length x = 5%nat
    /\ preprocess_input self y fe ggi c f tr
       = (inr (x, LabelEncoder.rank (countries self) c,
               LabelEncoder.rank (stem_fields self) f), tr').
Proof.
  intros Hnew Hvalid.
  apply validate_input_true in Hvalid as [_ Hall].
  pose proof (Hall CheckCountry) as Hc. pose proof (Hall CheckStemField) as Hf.
  cbn [holds] in Hc, Hf.
  apply new_service in Hnew as (m & _ & ->).
  cbn [countries stem_fields] in Hc, Hf.
  unfold preprocess_input. cbn [country_encoder field_encoder scaler].
  unfold bind at 1. rewrite (encoder_transform_fit _ _ _ Hc).
  unfold bind at 1. rewrite (encoder_transform_fit _ _ _ Hf).
  unfold bind at 1.
  match goal with
  | |- context [scaler_transform _ [?a; ?b; ?c; ?d; ?e] ?t] =>
      destruct (scaler_transform_five a b c d e t) as (x & Hlen & ->)
  end.
  unfold ret. now exists x; eexists.
Qed.

Lemma predict_returns (fs : artifact) (path : string)
    (self : STEMPredictionService) (m : model_obj)
    (y : Z) (fe ggi : pyfloat) (c f : string) (tr : list call) :
  new fs path = inr self ->
  model self = Some m ->
  (forall x, List.length x = 5%nat -> predict0 m x <> None) ->
  fst (validate_input self y fe ggi c f) = true ->
  exists x raw out tr',
    predict0 m x = Some raw
    /\ predict self y fe ggi c f tr = (inr out, tr')
    /\ predicted_graduation_rate out = py_round2 (clamp raw)
    /\ country_encoded out = Z.of_nat (LabelEncoder.rank (countries self) c)
    /\ stem_field_encoded out = Z.of_nat (LabelEncoder.rank (stem_fields self) f).
Proof.
  intros Hnew Hm Hans Hvalid.
  destruct (preprocess_input_returns _ _ _ y fe ggi c f tr Hnew Hvalid)
    as (x & t1 & Hlen & Hpre).
  unfold predict.
  destruct (validate_input self y fe ggi c f) as [[|] msg]; cbn [negb fst] in *;
    [| discriminate].
  destruct (predict0 m x) as [raw |] eqn:Hraw;
    [| now destruct (Hans x Hlen)].
  unfold bind at 1. rewrite Hpre. unfold bind at 1.
  rewrite Hm, (model_predict_Some _ _ _ _ Hraw). unfold ret.
  do 4 eexists. split; [exact Hraw |]. split; [reflexivity |].
  cbn. repeat split; reflexivity.
Qed.

End ServiceFacts.

(* ------------------------------------------------------------------ *)
(** ** Error messages that list the valid labels *)

Section ListingFacts.

Lemma append_empty_r (s : string) : s ++ "" = s.
Proof. induction s as [| x s IH]; cbn; [reflexivity | now rewrite IH]. Qed.

Lemma occurs_in_refl (s : string) : occurs_in s s.
Proof. exists "", "". cbn. now rewrite append_empty_r. Qed.

Lemma occurs_in_trans (a b c : string) :
  occurs_in a b -> occurs_in b c -> occurs_in a c.
Proof.
  intros (p & q & ->) (p' & q' & ->).
  exists (p' ++ p), (q ++ q'). now rewrite !append_assoc.
Qed.

Lemma occurs_in_join (sep : string) (ls : list string) (l : string) :
  In l ls -> occurs_in l (join sep ls).
Proof.
  unfold join. induction ls as [| x xs IH]; intros Hin; [destruct Hin |].
  destruct xs as [| y r].
  - destruct Hin as [-> | []]. apply occurs_in_refl.
  - change (String.concat sep (x :: y :: r))
      with (x ++ sep ++ String.concat sep (y :: r)).
    destruct Hin as [-> | Hin].
    + apply occurs_in_append_l, occurs_in_refl.
    + now apply occurs_in_append_r, occurs_in_append_r, IH.
Qed.

Lemma occurs_in_repr_list (ls : list string) (l : string) :
  In l ls -> occurs_in l (repr_list ls).
Proof.
  intros Hin. unfold repr_list.
  apply occurs_in_append_r, occurs_in_append_l.
  apply (occurs_in_trans _ (repr_str l)).
  - unfold repr_str. apply occurs_in_middle.
  - apply occurs_in_join. now apply in_map.
Qed.

End ListingFacts.

(* ------------------------------------------------------------------ *)
(** ** Facts about the health report *)

Section HealthFacts.

Lemma is_not_None_true {A} (o : option A) :
  Main.is_not_None o = true <-> o <> None.
Proof. destruct o; cbn; split; congruence. Qed.

Lemma model_type_of_inl (mo : option model_obj) (e : exn) :
  Main.model_type_of mo = inl e -> exists m, mo = Some m /\ truth m = None.
Proof.
  unfold Main.model_type_of. destruct mo as [m |]; [| discriminate].
  destruct (truth m) as [[|] |] eqn:Ht; try discriminate. now exists m.
Qed.

Lemma model_type_of_inr (mo : option model_obj) (ty : string) :
  Main.model_type_of mo = inr ty -> ~ exists m, mo = Some m /\ truth m = None.
Proof.
  unfold Main.model_type_of. destruct mo as [m |].
  - destruct (truth m) as [[|] |] eqn:Ht; try discriminate;
      intros _ (m' & E & T); inversion E; subst; congruence.
  - intros _ (m' & E & _). discriminate E.
Qed.

End HealthFacts.

(* ------------------------------------------------------------------ *)
(** ** The first failing check of [validate_input] *)

Section FirstFailure.

Variable self : Prediction.STEMPredictionService.
Variables (y : Z) (fe ggi : pyfloat) (c f : string).

Lemma first_failure_unique (k k' : check) :
  first_failure self k y fe ggi c f -> first_failure self k' y fe ggi c f ->
  k = k'.
Proof.
  intros [N H] [N' H'].
  destruct (Nat.lt_trichotomy (position k) (position k')) as [L | [E | L]].
  - destruct (N (H' _ L)).
  - destruct k, k'; cbn in E; congruence.
  - destruct (N' (H _ L)).
Qed.

Lemma validate_input_first_failure :
  (forall k, holds self k y fe ggi c f)
  /\ Prediction.validate_input self y fe ggi c f = (true, "")
  \/ exists k,
       first_failure self k y fe ggi c f
       /\ Prediction.validate_input self y fe ggi c f
          = (false, message_of self k c f).
Proof.
  destruct (ServiceFacts.validate_input_cases self y fe ggi c f)
    as [(N & E) | [(H1 & N & E) | [(H1 & H2 & N & E)
       | [(H1 & H2 & H3 & N & E) | [(H1 & H2 & H3 & H4 & N & E)
       | (H1 & H2 & H3 & H4 & H5 & E)]]]]].
  - right. exists CheckYear. split; [| exact E].
    split; [exact N |]. intros []; cbn; intros L; lia.
  - right. exists CheckEnrollment. split; [| exact E].
    split; [exact N |]. intros []; cbn; intros L; try lia; assumption.
  - right. exists CheckGenderGap. split; [| exact E].
    split; [exact N |]. intros []; cbn; intros L; try lia; assumption.
  - right. exists CheckCountry. split; [| exact E].
    split; [exact N |]. intros []; cbn; intros L; try lia; assumption.
  - right. exists CheckStemField. split; [| exact E].
    split; [exact N |]. intros []; cbn; intros L; try lia; assumption.
  - left. split; [| exact E]. intros []; assumption.
Qed.

End FirstFailure.

(* ------------------------------------------------------------------ *)
(** ** The example regressor *)

Section ExampleFacts.

Lemma example_model_answers : answers example_model.
Proof.
  intros x Hlen. unfold example_model, SGDRegressor_fitted. cbn [predict0].
  rewrite Hlen. discriminate.
Qed.

Lemma startup_example :
  Main.startup_event (Stored example_model) [] 0 = inr (globals_with example_model).
Proof. reflexivity. Qed.

Lemma new_example :
  Prediction.new (Stored example_model) "model/best_model.pkl"
  = inr (service_with example_model).
Proof. reflexivity. Qed.

End ExampleFacts.

(* ------------------------------------------------------------------ *)
(** ** The claims *)

(** C1.  Whatever the regressor returns, a prediction that is returned has
    its [predicted_graduation_rate] in the closed interval [0, 100]: both
    pipelines clamp the raw output with [max(0.0, min(100.0, .))] before
    they round it.  This holds of every returned result of [POST /predict]
    and of [STEMPredictionService.predict]; and after a startup, a valid
    request to a regressor that answers does get such a result. *)
Theorem C1_predicted_rate_within_0_100 :
  forall (g : Main.globals) (body : Main.PredictionInput)
         (self : Prediction.STEMPredictionService)
         (y : Z) (fe ggi : pyfloat) (c f : string) (tr : list call),
    (forall out tr',
        Main.post_predict g body tr = (inr out, tr') ->
        within_0_100 (Main.predicted_graduation_rate out))
    /\ (forall out tr',
        Prediction.predict self y fe ggi c f tr = (inr out, tr') ->
        within_0_100 (Prediction.predicted_graduation_rate out))
    /\ (forall fs coef_ intercept_ m,
        Main.startup_event fs coef_ intercept_ = inr g ->
        Main.model g = Some m -> answers m ->
        Main.PredictionInput_errors body = [] ->
        exists x raw out tr',
          predict0 m x = Some raw
          /\ Main.post_predict g body tr = (inr out, tr')
          /\ Main.predicted_graduation_rate out = py_round2 (clamp raw)
          /\ within_0_100 (Main.predicted_graduation_rate out))
    /\ (forall fs path m,
        Prediction.new fs path = inr self ->
        Prediction.model self = Some m -> answers m ->
        fst (Prediction.validate_input self y fe ggi c f) = true ->
        exists x raw out tr',
          predict0 m x = Some raw
          /\ Prediction.predict self y fe ggi c f tr = (inr out, tr')
          /\ Prediction.predicted_graduation_rate out = py_round2 (clamp raw)
          /\ within_0_100 (Prediction.predicted_graduation_rate out)).
Proof.
  intros g body self y fe ggi c f tr.
  split; [| split; [| split]].
  - intros out tr' H.
    apply HandlerFacts.post_predict_inr in H as (_ & raw & -> & _).
    apply py_round2_within, clamp_within.
  - intros out tr' H.
    apply ServiceFacts.predict_inr in H as (_ & raw & ->).
    apply py_round2_within, clamp_within.
  - intros fs coef_ intercept_ m Hs Hm Ha Hv.
    destruct (HandlerFacts.post_predict_returns _ _ _ _ _ body tr Hs Hm Ha Hv)
      as (x & raw & out & tr' & Hraw & Hrun & Hrate & _).
    exists x, raw, out, tr'. repeat split; try assumption;
      rewrite Hrate; apply py_round2_within, clamp_within.
  - intros fs path m Hn Hm Ha Hv.
    destruct (ServiceFacts.predict_returns _ _ _ _ y fe ggi c f tr Hn Hm Ha Hv)
      as (x & raw & out & tr' & Hraw & Hrun & Hrate & _).
    exists x, raw, out, tr'. repeat split; try assumption;
      rewrite Hrate; apply py_round2_within, clamp_within.
Qed.

(** The example request of the specification, answered by both pipelines
    from the example regressor. *)
Lemma C1_witness :
  (exists x raw out tr',
      predict0 example_model x = Some raw
      /\ Main.post_predict (globals_with example_model) example_request []
         = (inr out, tr')
      /\ Main.predicted_graduation_rate out = py_round2 (clamp raw)
      /\ within_0_100 (Main.predicted_graduation_rate out))
  /\ (exists x raw out tr',
      predict0 example_model x = Some raw
      /\ Prediction.predict (service_with example_model)
           2024 (Finite 45.5) (Finite 0.75) "India" "Computer Science" []
         = (inr out, tr')
      /\ Prediction.predicted_graduation_rate out = py_round2 (clamp raw)
      /\ within_0_100 (Prediction.predicted_graduation_rate out)).
Proof.
  pose proof (C1_predicted_rate_within_0_100
                (globals_with example_model) example_request
                (service_with example_model)
                2024 (Finite 45.5) (Finite 0.75) "India" "Computer Science" [])
    as (_ & _ & Hmain & Hservice).
  split.
  - apply (Hmain (Stored example_model) [] 0%Q example_model).
    + reflexivity.
    + reflexivity.
    + exact example_model_answers.
    + vm_compute. reflexivity.
  - apply (Hservice (Stored example_model) "model/best_model.pkl" example_model).
    + reflexivity.
    + reflexivity.
    + exact example_model_answers.
    + vm_compute. reflexivity.
Defined.

(** C2, on the code.  Before any load [/health] says ["degraded"].  When
    the artifact is missing, the loader of [main.py] installs a regressor
    fitted on random dummy data: the startup succeeds, [/health] says
    ["healthy"] and [/predict] answers the example request from that
    regressor.  An unreadable artifact makes the startup fail, and the
    loader of [prediction.py] fails in both cases. *)
Theorem C2_missing_artifact_fallback :
  forall (w1 w2 w3 w4 w5 b : Q) (path why : string),
    let fallback := SGDRegressor_fitted [w1; w2; w3; w4; w5] b in
    Main.status_of (Main.health_check Main.initial_globals) = "degraded"
    /\ Main.startup_event Missing [w1; w2; w3; w4; w5] b
       = inr (globals_with fallback)
    /\ Main.model (globals_with fallback) = Some fallback
    /\ Main.status_of (Main.health_check (globals_with fallback)) = "healthy"
    /\ (exists out tr,
          Main.post_predict (globals_with fallback) example_request []
          = (inr out, tr))
    /\ Main.startup_event (Unreadable why) [w1; w2; w3; w4; w5] b
       = inl (OtherError why)
    /\ Prediction.new Missing path
       = inl (FileNotFoundError ("Model file not found: " ++ path))
    /\ Prediction.new (Unreadable why) path = inl (OtherError why).
Proof.
  intros w1 w2 w3 w4 w5 b path why fallback.
  split; [reflexivity |].
  split; [reflexivity |]. split; [reflexivity |]. split; [reflexivity |].
  split; [| repeat split].
  assert (Ha : answers fallback).
  { intros x Hlen. subst fallback. unfold SGDRegressor_fitted. cbn [predict0].
    rewrite Hlen. discriminate. }
  destruct (HandlerFacts.post_predict_returns Missing [w1; w2; w3; w4; w5] b
              (globals_with fallback) fallback example_request []
              eq_refl eq_refl Ha)
    as (x & raw & out & tr' & _ & Hrun & _).
  - vm_compute. reflexivity.
  - now exists out, tr'.
Qed.

(** C3.  In a response of [POST /predict] the confidence label is
    ["medium"] exactly when [year > 2025] or [gender_gap_index < 0.5], and
    ["high"] otherwise; when both conditions hold the label is the single
    value ["medium"].  After a startup, a valid request to a regressor that
    answers does get a response. *)
Theorem C3_confidence_label :
  forall (g : Main.globals) (body : Main.PredictionInput) (tr : list call),
    (forall out tr',
        Main.post_predict g body tr = (inr out, tr') ->
        exists q,
          Main.gender_gap_index body = Finite q
          /\ (Main.model_confidence out = "medium"
              <-> (2025 < Main.year body)%Z \/ (q < 0.5)%Q)
          /\ (Main.model_confidence out = "high"
              <-> ~ ((2025 < Main.year body)%Z \/ (q < 0.5)%Q)))
    /\ (forall fs coef_ intercept_ m,
        Main.startup_event fs coef_ intercept_ = inr g ->
        Main.model g = Some m -> answers m ->
        Main.PredictionInput_errors body = [] ->
        exists out tr', Main.post_predict g body tr = (inr out, tr')).
Proof.
  intros g body tr. split.
  - intros out tr' H.
    apply HandlerFacts.post_predict_inr in H as (Hv & raw & _ & ->).
    apply MainFacts.PredictionInput_errors_nil in Hv
      as (_ & _ & (q & Hq & _) & _).
    exists q. split; [exact Hq |].
    unfold Main.confidence_score_of. rewrite Hq.
    assert (Hlt : lt (Finite q) (Finite 0.5) = true <-> (q < 0.5)%Q)
      by apply lt_Finite.
    destruct (Z.gtb_spec (Main.year body) 2025) as [Hy | Hy];
      destruct (lt (Finite q) (Finite 0.5));
      split; split; intros K; try discriminate K; try reflexivity;
      try tauto; try (intuition (discriminate || lia)).
  - intros fs coef_ intercept_ m Hs Hm Ha Hv.
    destruct (HandlerFacts.post_predict_returns _ _ _ _ _ body tr Hs Hm Ha Hv)
      as (x & raw & out & tr' & _ & Hrun & _).
    now exists out, tr'.
Qed.

(** The scenario [year = 2028], [gender_gap_index = 0.3]: both conditions
    hold and the label is ["medium"]. *)
Lemma C3_witness :
  let body := {| Main.year := 2028;
                 Main.female_enrollment_percent := Finite 45.5;
                 Main.gender_gap_index := Finite 0.3;
                 Main.country := "India";
                 Main.stem_field := "Engineering" |} in
  exists out tr',
    Main.post_predict (globals_with example_model) body [] = (inr out, tr')
    /\ Main.model_confidence out = "medium".
Proof.
  intros body.
  destruct (C3_confidence_label (globals_with example_model) body [])
    as [Hlabel Hreturns].
  destruct (Hreturns (Stored example_model) [] 0%Q example_model
              eq_refl eq_refl example_model_answers eq_refl)
    as (out & tr' & Hrun).
  exists out, tr'. split; [exact Hrun |].
  destruct (Hlabel out tr' Hrun) as (q & Hq & Hmed & _).
  apply Hmed. left. cbn. lia.
Defined.

(** C4.  For a label [v] of the category set [l], the fitted encoder
    returns the zero-based position of [v] in the lexicographically sorted,
    duplicate-free array of the labels of [l]; that position is the
    alphabetical rank of [v] (the number of distinct labels below it), and
    it is the same for every list [l'] with the same labels, whatever their
    order of insertion. *)
Theorem C4_encoding_is_alphabetical_rank :
  forall (l : list string) (v : string),
    In v l ->
    let enc := LabelEncoder.fit l in
    StronglySorted LabelEncoder.slt (LabelEncoder.classes_ enc)
    /\ (forall x, In x (LabelEncoder.classes_ enc) <-> In x l)
    /\ exists i,
         LabelEncoder.transform enc v = Some i
         /\ nth_error (LabelEncoder.classes_ enc) i = Some v
         /\ i = LabelEncoder.rank l v
         /\ forall l',
              (Permutation l l' \/ forall x, In x l <-> In x l') ->
              LabelEncoder.transform (LabelEncoder.fit l') v = Some i.
Proof.
  intros l v Hin enc. subst enc. cbn [LabelEncoder.fit LabelEncoder.classes_].
  split; [apply LabelEncoderFacts.unique_sorted |].
  split; [intros x; apply LabelEncoderFacts.unique_In |].
  exists (LabelEncoder.rank l v).
  pose proof (LabelEncoderFacts.transform_fit_rank l v Hin) as Ht.
  split; [exact Ht |].
  split; [apply LabelEncoderFacts.index_of_nth; exact Ht |].
  split; [reflexivity |].
  intros l' Hsame.
  assert (Hext : forall x, In x l <-> In x l').
  { destruct Hsame as [Hp | Hext]; [| exact Hext].
    intros x. split; apply Permutation_in;
      [exact Hp | apply Permutation_sym, Hp]. }
  unfold LabelEncoder.transform, LabelEncoder.fit in *.
  cbn [LabelEncoder.classes_] in *.
  now rewrite <- (LabelEncoderFacts.unique_ext l l' Hext).
Qed.

(** ["India"] has code 6 among the eleven countries of [main.py], also
    when the list is given in another order. *)
Lemma C4_witness :
  LabelEncoder.transform (LabelEncoder.fit Main.COUNTRIES) "India" = Some 6%nat
  /\ LabelEncoder.transform
       (LabelEncoder.fit (rev Main.COUNTRIES)) "India" = Some 6%nat.
Proof.
  assert (Hin : In "India" Main.COUNTRIES).
  { apply mem_In. reflexivity. }
  destruct (C4_encoding_is_alphabetical_rank Main.COUNTRIES "India" Hin)
    as (_ & _ & i & Hi & _ & Hrank & Hperm).
  assert (E : i = 6%nat) by (rewrite Hrank; reflexivity).
  rewrite E in *. split; [exact Hi |].
  apply Hperm. left. apply Permutation_rev.
Defined.

(** C5.  A request whose [year] is outside [2000, 2030], or whose
    [female_enrollment_percent] is outside [0, 100], or whose
    [gender_gap_index] is outside [0, 1] is rejected by both pipelines with
    an input error that names an offending field, and the trace of calls on
    the encoders, the scaler and the regressor is left as it was. *)
Theorem C5_out_of_range_rejected :
  forall (g : Main.globals) (self : Prediction.STEMPredictionService)
         (body : Main.PredictionInput) (tr : list call),
    ~ year_in_range (Main.year body)
    \/ ~ float_in_range 0 100 (Main.female_enrollment_percent body)
    \/ ~ float_in_range 0 1 (Main.gender_gap_index body) ->
    (exists errors,
        Main.post_predict g body tr = (inl (RequestValidationError errors), tr)
        /\ (~ year_in_range (Main.year body) ->
            exists e, In ("year", e) errors)
        /\ (~ float_in_range 0 100 (Main.female_enrollment_percent body) ->
            exists e, In ("female_enrollment_percent", e) errors)
        /\ (~ float_in_range 0 1 (Main.gender_gap_index body) ->
            exists e, In ("gender_gap_index", e) errors))
    /\ (exists k,
        In k [CheckYear; CheckEnrollment; CheckGenderGap]
        /\ ~ holds self k (Main.year body) (Main.female_enrollment_percent body)
               (Main.gender_gap_index body) (Main.country body)
               (Main.stem_field body)
        /\ Prediction.predict self (Main.year body)
             (Main.female_enrollment_percent body) (Main.gender_gap_index body)
             (Main.country body) (Main.stem_field body) tr
           = (inl (ValueError
                     (message_of self k (Main.country body) (Main.stem_field body))),
              tr)).
Proof.
  intros g self body tr Hbad. split.
  - exists (Main.PredictionInput_errors body).
    assert (Hne : Main.PredictionInput_errors body <> []).
    { intros E. apply MainFacts.PredictionInput_errors_nil in E. tauto. }
    split; [now apply HandlerFacts.post_predict_rejects |].
    unfold Main.PredictionInput_errors.
    split; [| split]; intros Hf.
    + rewrite <- MainFacts.of_int_in_range in Hf.
      destruct (MainFacts.number_errors_cons "year" _ _ _ Hf) as [e E].
      exists e. rewrite E. now left.
    + rewrite (float_in_range_compat 0 100 0.0 100.0) in Hf by reflexivity.
      destruct (MainFacts.number_errors_cons "female_enrollment_percent" _ _ _ Hf)
        as [e E].
      exists e. rewrite E. apply in_or_app. right. now left.
    + rewrite (float_in_range_compat 0 1 0.0 1.0) in Hf by reflexivity.
      destruct (MainFacts.number_errors_cons "gender_gap_index" _ _ _ Hf)
        as [e E].
      exists e. rewrite E. apply in_or_app. right. apply in_or_app. right.
      now left.
  - pose proof (ServiceFacts.validate_input_cases self (Main.year body)
                  (Main.female_enrollment_percent body)
                  (Main.gender_gap_index body) (Main.country body)
                  (Main.stem_field body)) as Hcases.
    cbv zeta in Hcases.
    destruct Hcases
      as [(N & E) | [(H1 & N & E) | [(H1 & H2 & N & E)
         | [(H1 & H2 & H3 & _) | [(H1 & H2 & H3 & _) | (H1 & H2 & H3 & _)]]]]];
      try (exfalso; cbn [holds] in *; tauto).
    + exists CheckYear. split; [cbn; tauto |]. split; [exact N |].
      rewrite ServiceFacts.predict_rejects; rewrite E; reflexivity.
    + exists CheckEnrollment. split; [cbn; tauto |]. split; [exact N |].
      rewrite ServiceFacts.predict_rejects; rewrite E; reflexivity.
    + exists CheckGenderGap. split; [cbn; tauto |]. split; [exact N |].
      rewrite ServiceFacts.predict_rejects; rewrite E; reflexivity.
Qed.

(** The year 1999 is refused by both pipelines and nothing is called. *)
Lemma C5_witness :
  let body := {| Main.year := 1999;
                 Main.female_enrollment_percent := Finite 45.5;
                 Main.gender_gap_index := Finite 0.75;
                 Main.country := "India";
                 Main.stem_field := "Biology" |} in
  ~ year_in_range 1999
  /\ fst (Main.post_predict (globals_with example_model) body [])
     = inl (RequestValidationError [("year", NotGe 2000)])
  /\ snd (Main.post_predict (globals_with example_model) body []) = []
  /\ snd (Prediction.predict (service_with example_model)
            1999 (Finite 45.5) (Finite 0.75) "India" "Biology" []) = [].
Proof.
  intros body.
  assert (Hbad : ~ year_in_range 1999) by (unfold year_in_range; lia).
  destruct (C5_out_of_range_rejected (globals_with example_model)
              (service_with example_model) body [] (or_introl Hbad))
    as ((errors & Hmain & _) & (k & _ & _ & Hservice)).
  split; [exact Hbad |].
  split; [reflexivity |].
  split; [now rewrite Hmain |].
  change (Prediction.predict (service_with example_model) 1999
            (Finite 45.5) (Finite 0.75) "India" "Biology" [])
    with (Prediction.predict (service_with example_model) (Main.year body)
            (Main.female_enrollment_percent body) (Main.gender_gap_index body)
            (Main.country body) (Main.stem_field body) []).
  now rewrite Hservice.
Defined.

(** C6, as the code has it.  In [main.py] a request whose country (or
    field) is not in the pinned set is always refused with a validation
    error whose entry for that field names the rejected value and lists
    every valid label.  [STEMPredictionService] stops at the first failing
    check: it names the rejected country and lists the valid set when the
    three numeric ranges hold, and does so for the field when moreover the
    country is supported. *)
Theorem C6_unsupported_category_reported :
  forall (g : Main.globals) (self : Prediction.STEMPredictionService)
         (body : Main.PredictionInput) (tr : list call),
    let y := Main.year body in
    let fe := Main.female_enrollment_percent body in
    let ggi := Main.gender_gap_index body in
    let c := Main.country body in
    let f := Main.stem_field body in
    (~ In c Main.COUNTRIES ->
     exists errors msg,
       Main.post_predict g body tr = (inl (RequestValidationError errors), tr)
       /\ In ("country", ValidatorError msg) errors
       /\ names_and_lists msg c Main.COUNTRIES)
    /\ (~ In f Main.STEM_FIELDS ->
        exists errors msg,
          Main.post_predict g body tr = (inl (RequestValidationError errors), tr)
          /\ In ("stem_field", ValidatorError msg) errors
          /\ names_and_lists msg f Main.STEM_FIELDS)
    /\ (year_in_range y -> float_in_range 0 100 fe -> float_in_range 0 1 ggi ->
        ~ In c (Prediction.countries self) ->
        exists msg,
          Prediction.predict self y fe ggi c f tr = (inl (ValueError msg), tr)
          /\ names_and_lists msg c (Prediction.countries self))
    /\ (year_in_range y -> float_in_range 0 100 fe -> float_in_range 0 1 ggi ->
        In c (Prediction.countries self) ->
        ~ In f (Prediction.stem_fields self) ->
        exists msg,
          Prediction.predict self y fe ggi c f tr = (inl (ValueError msg), tr)
          /\ names_and_lists msg f (Prediction.stem_fields self)).
Proof.
  intros g self body tr y fe ggi c f.
  split; [| split; [| split]].
  - intros Hc.
    assert (Hne : Main.PredictionInput_errors body <> []).
    { intros E. apply MainFacts.PredictionInput_errors_nil in E. tauto. }
    eexists. eexists. split; [now apply HandlerFacts.post_predict_rejects |].
    unfold Main.PredictionInput_errors, Main.validate_country.
    change Main.supported_countries with Main.COUNTRIES.
    fold c. rewrite (proj2 (mem_false _ _) Hc). cbn [negb Main.validator_errors exn_str].
    split.
    + do 3 (apply in_or_app; right). apply in_or_app. left. now left.
    + split; [apply occurs_in_middle |].
      apply Forall_forall. intros l Hl.
      do 4 apply occurs_in_append_r. apply occurs_in_append_l.
      now apply occurs_in_join.
  - intros Hf.
    assert (Hne : Main.PredictionInput_errors body <> []).
    { intros E. apply MainFacts.PredictionInput_errors_nil in E. tauto. }
    eexists. eexists. split; [now apply HandlerFacts.post_predict_rejects |].
    unfold Main.PredictionInput_errors, Main.validate_stem_field.
    change Main.supported_fields with Main.STEM_FIELDS.
    fold f. rewrite (proj2 (mem_false _ _) Hf). cbn [negb Main.validator_errors exn_str].
    split.
    + do 4 (apply in_or_app; right). now left.
    + split; [apply occurs_in_middle |].
      apply Forall_forall. intros l Hl.
      do 4 apply occurs_in_append_r. apply occurs_in_append_l.
      now apply occurs_in_join.
  - intros H1 H2 H3 Hc.
    destruct (ServiceFacts.validate_input_cases self y fe ggi c f)
      as [(N & E) | [(_ & N & E) | [(_ & _ & N & E)
         | [(_ & _ & _ & N & E) | [(_ & _ & _ & K & _) | (_ & _ & _ & K & _)]]]]];
      cbn [holds] in *; try tauto.
    exists (message_of self CheckCountry c f).
    split; [rewrite ServiceFacts.predict_rejects; rewrite E; reflexivity |].
    cbn [message_of]. split; [apply occurs_in_middle |].
    apply Forall_forall. intros l Hl.
    do 3 apply occurs_in_append_r. now apply occurs_in_repr_list.
  - intros H1 H2 H3 Hc Hf.
    destruct (ServiceFacts.validate_input_cases self y fe ggi c f)
      as [(N & E) | [(_ & N & E) | [(_ & _ & N & E)
         | [(_ & _ & _ & N & E) | [(_ & _ & _ & _ & N & E) | (_ & _ & _ & _ & K & _)]]]]];
      cbn [holds] in *; try tauto.
    exists (message_of self CheckStemField c f).
    split; [rewrite ServiceFacts.predict_rejects; rewrite E; reflexivity |].
    cbn [message_of]. split; [apply occurs_in_middle |].
    apply Forall_forall. intros l Hl.
    do 3 apply occurs_in_append_r. now apply occurs_in_repr_list.
Qed.

(** The country ["Atlantis"] with valid numbers: both pipelines name it and
    list their valid countries. *)
Lemma C6_witness :
  let body := {| Main.year := 2024;
                 Main.female_enrollment_percent := Finite 45.5;
                 Main.gender_gap_index := Finite 0.75;
                 Main.country := "Atlantis";
                 Main.stem_field := "Biology" |} in
  (exists errors msg,
      Main.post_predict (globals_with example_model) body []
      = (inl (RequestValidationError errors), [])
      /\ In ("country", ValidatorError msg) errors
      /\ names_and_lists msg "Atlantis" Main.COUNTRIES)
  /\ (exists msg,
      Prediction.predict (service_with example_model)
        2024 (Finite 45.5) (Finite 0.75) "Atlantis" "Biology" []
      = (inl (ValueError msg), [])
      /\ names_and_lists msg "Atlantis"
           (Prediction.countries (service_with example_model))).
Proof.
  intros body.
  destruct (C6_unsupported_category_reported (globals_with example_model)
              (service_with example_model) body [])
    as (Hmain & _ & Hservice & _).
  split.
  - apply Hmain. apply mem_false. reflexivity.
  - apply Hservice.
    + unfold year_in_range. cbn. lia.
    + exists 45.5%Q. cbn. repeat split; lra.
    + exists 0.75%Q. cbn. repeat split; lra.
    + apply mem_false. reflexivity.
Defined.

(** C6 as stated fails on [STEMPredictionService]: with the year 1999 the
    unsupported country ["Atlantis"] is refused with the message of the
    year, which neither names the country nor lists the valid ones. *)
Lemma C6_counterexample :
  ~ In "Atlantis" (Prediction.countries (service_with example_model))
  /\ Prediction.predict (service_with example_model)
       1999 (Finite 45.5) (Finite 0.75) "Atlantis" "Biology" []
     = (inl (ValueError "Year must be between 2000 and 2030"), [])
  /\ ~ names_and_lists "Year must be between 2000 and 2030" "Atlantis"
         (Prediction.countries (service_with example_model)).
Proof.
  split; [apply mem_false; reflexivity |].
  split; [reflexivity |].
  intros [H _]. apply contains_occurs in H. discriminate H.
Qed.

(** C7.  Once the loader has run, a request that passed validation is
    encoded without error: the validators test membership in the very
    lists the two encoders were fitted with, so [transform] finds the
    country and the field.  In [prediction.py] the whole preprocessing
    step returns. *)
Theorem C7_encoding_cannot_fail_after_validation :
  forall (fs : artifact) (coef_ : list Q) (intercept_ : Q) (path : string)
         (g : Main.globals) (self : Prediction.STEMPredictionService)
         (body : Main.PredictionInput) (tr : list call),
    let y := Main.year body in
    let fe := Main.female_enrollment_percent body in
    let ggi := Main.gender_gap_index body in
    let c := Main.country body in
    let f := Main.stem_field body in
    (Main.startup_event fs coef_ intercept_ = inr g ->
     Main.PredictionInput_errors body = [] ->
     exists i j tr1 tr2,
       encoder_transform (Main.country_encoder g) c tr = (inr i, tr1)
       /\ encoder_transform (Main.field_encoder g) f tr1 = (inr j, tr2))
    /\ (Prediction.new fs path = inr self ->
        fst (Prediction.validate_input self y fe ggi c f) = true ->
        exists x i j tr',
          Prediction.preprocess_input self y fe ggi c f tr = (inr (x, i, j), tr')).
Proof.
  intros fs coef_ intercept_ path g self body tr y fe ggi c f. split.
  - intros Hs Hv.
    apply MainFacts.startup_event_globals in Hs as (m & -> & _).
    apply MainFacts.PredictionInput_errors_nil in Hv as (_ & _ & _ & Hc & Hf).
    cbn [Main.country_encoder Main.field_encoder].
    do 4 eexists. split.
    + apply (encoder_transform_fit _ _ _ Hc).
    + apply (encoder_transform_fit _ _ _ Hf).
  - intros Hn Hv.
    destruct (ServiceFacts.preprocess_input_returns _ _ _ y fe ggi c f tr Hn Hv)
      as (x & tr' & _ & E).
    do 4 eexists. exact E.
Qed.

(** The example request is encoded as (10, 1) by [main.py]; the same
    request for ["India"] is preprocessed by the service. *)
Lemma C7_witness :
  (exists i j tr1 tr2,
      encoder_transform (Main.country_encoder (globals_with example_model))
        "United States" [] = (inr i, tr1)
      /\ encoder_transform (Main.field_encoder (globals_with example_model))
           "Computer Science" tr1 = (inr j, tr2))
  /\ (exists x i j tr',
      Prediction.preprocess_input (service_with example_model)
        2024 (Finite 45.5) (Finite 0.75) "India" "Computer Science" []
      = (inr (x, i, j), tr')).
Proof.
  split.
  - apply (C7_encoding_cannot_fail_after_validation
             (Stored example_model) [] 0%Q "model/best_model.pkl"
             (globals_with example_model) (service_with example_model)
             example_request []); reflexivity.
  - apply (C7_encoding_cannot_fail_after_validation
             (Stored example_model) [] 0%Q "model/best_model.pkl"
             (globals_with example_model) (service_with example_model)
             {| Main.year := 2024;
                Main.female_enrollment_percent := Finite 45.5;
                Main.gender_gap_index := Finite 0.75;
                Main.country := "India";
                Main.stem_field := "Computer Science" |} []); reflexivity.
Defined.

(** C8, as the code has it.  [/health] answers with one of three statuses.
    ["unhealthy"] is the answer of the [except] clause, taken when the
    truth test of the loaded object raises; otherwise the status is
    ["degraded"] when one of the model, the two encoders and the scaler is
    [None], and ["healthy"] when none is. *)
Theorem C8_health_status :
  forall (g : Main.globals),
    let s := Main.status_of (Main.health_check g) in
    let all_set :=
      Main.model g <> None /\ Main.country_encoder g <> None
      /\ Main.field_encoder g <> None /\ Main.scaler g <> None in
    let raises := exists m, Main.model g = Some m /\ truth m = None in
    (s = "healthy" \/ s = "degraded" \/ s = "unhealthy")
    /\ (s = "unhealthy" <-> raises)
    /\ (s = "degraded" <-> ~ raises /\ ~ all_set)
    /\ (s = "healthy" <-> ~ raises /\ all_set).
Proof.
  intros g. cbv zeta. unfold Main.health_check.
  destruct (Main.model_type_of (Main.model g)) as [e | ty] eqn:Hty.
  - apply model_type_of_inl in Hty. cbn. intuition discriminate.
  - apply model_type_of_inr in Hty.
    rewrite <- !is_not_None_true.
    destruct (Main.is_not_None (Main.model g)),
      (Main.is_not_None (Main.country_encoder g)),
      (Main.is_not_None (Main.field_encoder g)),
      (Main.is_not_None (Main.scaler g)); cbn;
      intuition (discriminate || congruence).
Qed.

(** C8 as stated fails: when the artifact unpickles to a forest that was
    never fitted, every component is set and the status is neither
    ["healthy"] nor ["degraded"]. *)
Lemma C8_counterexample :
  Main.startup_event (Stored unfitted_forest) [] 0 = inr (globals_with unfitted_forest)
  /\ Main.status_of (Main.health_check (globals_with unfitted_forest)) = "unhealthy"
  /\ Main.status_of (Main.health_check (globals_with unfitted_forest)) <> "healthy"
  /\ Main.status_of (Main.health_check (globals_with unfitted_forest)) <> "degraded".
Proof. repeat split; discriminate. Qed.

(** C9.  The two pipelines pin different country lists: eleven labels in
    [main.py], six in [STEMPredictionService] (with ["USA"] in place of
    ["United States"]).  ["United States"] passes the validation of
    [main.py] and is refused by [validate_input]; ["India"] is encoded as 6
    by one and as 4 by the other. *)
Theorem C9_pipelines_disagree :
  let self := service_with example_model in
  let g := globals_with example_model in
  List.length Main.COUNTRIES = 11%nat
  /\ List.length (Prediction.countries self) = 6%nat
  /\ In "United States" Main.COUNTRIES
  /\ In "United Kingdom" Main.COUNTRIES
  /\ In "USA" (Prediction.countries self)
  /\ ~ In "United States" (Prediction.countries self)
  /\ Main.PredictionInput_errors example_request = []
  /\ fst (Prediction.validate_input self 2024 (Finite 45.5) (Finite 0.75)
            "United States" "Computer Science") = false
  /\ In "India" Main.COUNTRIES
  /\ In "India" (Prediction.countries self)
  /\ encoder_transform (Main.country_encoder g) "India" []
     = (inr 6%nat,
        [EncoderTransform (LabelEncoder.unique Main.COUNTRIES) "India"])
  /\ encoder_transform (Prediction.country_encoder self) "India" []
     = (inr 4%nat,
        [EncoderTransform (LabelEncoder.unique (Prediction.countries self)) "India"]).
Proof.
  cbv zeta.
  repeat match goal with
         | |- _ /\ _ => split
         | |- In _ _ => apply mem_In; reflexivity
         | |- ~ In _ _ => apply mem_false; reflexivity
         end; reflexivity.
Qed.

(** C10.  [validate_input] tries the five checks in the order year,
    enrollment, gender gap index, country, field and answers with the
    message of the first one that fails, whatever the later fields are; it
    answers [(True, "")] exactly when the five constraints hold. *)
Theorem C10_validate_input_first_failure :
  forall (self : Prediction.STEMPredictionService)
         (y : Z) (fe ggi : pyfloat) (c f : string),
    let ok k := holds self k y fe ggi c f in
    let answer := Prediction.validate_input self y fe ggi c f in
    (answer = (true, "") <-> forall k, ok k)
    /\ (fst answer = true <-> forall k, ok k)
    /\ (forall k,
          ~ ok k -> (forall j, (position j < position k)%nat -> ok j) ->
          answer = (false, message_of self k c f))
    /\ ((exists k, ~ ok k) ->
        exists k,
          ~ ok k /\ (forall j, (position j < position k)%nat -> ok j)
          /\ answer = (false, message_of self k c f)).
Proof.
  intros self y fe ggi c f. cbv zeta.
  destruct (validate_input_first_failure self y fe ggi c f)
    as [[Hall E] | (k0 & Hk0 & E)].
  - rewrite E. cbn [fst].
    split; [tauto |]. split; [tauto |]. split.
    + intros k N. destruct (N (Hall k)).
    + intros (k & N). destruct (N (Hall k)).
  - rewrite E. cbn [fst].
    split; [| split; [| split]].
    + split; [discriminate |]. intros Hall. destruct Hk0 as [N _].
      destruct (N (Hall k0)).
    + split; [discriminate |]. intros Hall. destruct Hk0 as [N _].
      destruct (N (Hall k0)).
    + intros k N Hfirst.
      now rewrite (first_failure_unique self y fe ggi c f k k0 (conj N Hfirst) Hk0).
    + intros _. exists k0. destruct Hk0 as [N Hfirst]. auto.
Qed.

(** A request whose year, country and field are all invalid: only the year
    is reported. *)
Lemma C10_witness :
  Prediction.validate_input (service_with example_model)
    1999 (Finite 45.5) (Finite 0.75) "Atlantis" "Alchemy"
  = (false, "Year must be between 2000 and 2030").
Proof.
  destruct (C10_validate_input_first_failure (service_with example_model)
              1999 (Finite 45.5) (Finite 0.75) "Atlantis" "Alchemy")
    as (_ & _ & Hfirst & _).
  apply (Hfirst CheckYear).
  - cbn. unfold year_in_range. lia.
  - intros j L. destruct j; cbn in L; lia.
Defined.

(* ------------------------------------------------------------------ *)
(** ** Further facts about clamping and rounding *)

Section RoundingFacts.


Lemma round_half_even_monotone (p q : Q) :
  (p <= q)%Q -> (round_half_even p <= round_half_even q)%Z.
Proof.
  intros Hpq.
  pose proof (Qfloor_resp_le _ _ Hpq) as Hf.
  destruct (Z.eq_dec (Qfloor p) (Qfloor q)) as [E | N].
  - unfold round_half_even. rewrite E.
    destruct (Qcompare_spec (p - inject_Z (Qfloor q)) (1 # 2)) as [E1 | L1 | G1];
      destruct (Qcompare_spec (q - inject_Z (Qfloor q)) (1 # 2)) as [E2 | L2 | G2];
      try lia; try (exfalso; lra);
      destruct (Z.even (Qfloor q)); lia.
  - assert (Hp : (round_half_even p <= Qfloor p + 1)%Z).
    { unfold round_half_even.
      destruct (Qcompare (p - inject_Z (Qfloor p)) (1 # 2));
        try destruct (Z.even (Qfloor p)); lia. }
    assert (Hq : (Qfloor q <= round_half_even q)%Z).
    { unfold round_half_even.
      destruct (Qcompare (q - inject_Z (Qfloor q)) (1 # 2));
        try destruct (Z.even (Qfloor q)); lia. }
    lia.
Qed.


Lemma round_half_even_fixed (z : Z) (d : positive) :
  round_half_even ((z # d) * inject_Z (Zpos d)) = z.
Proof.
  assert (E : ((z # d) * inject_Z (Zpos d) == inject_Z z)%Q).
  { unfold Qeq, Qmult, inject_Z. cbn. lia. }
  unfold round_half_even. rewrite (Qfloor_comp _ _ E), Qfloor_Z.
  destruct (Qcompare_spec ((z # d) * inject_Z (Zpos d) - inject_Z z) (1 # 2))
    as [E1 | L1 | G1]; [exfalso; lra | reflexivity | exfalso; lra].
Qed.

(** What [max(0.0, min(100.0, .))] does to a finite float. *)
Lemma clamp_Finite (q : Q) :
  ((q <= 0)%Q /\ clamp (Finite q) = Finite 0.0)
  \/ ((0 < q)%Q /\ (q < 100)%Q /\ clamp (Finite q) = Finite q)
  \/ ((100 <= q)%Q /\ clamp (Finite q) = Finite 100.0).
Proof.
  unfold clamp, py_max, py_min, gt. cbn [lt].
  destruct (Qle_bool 100.0 q) eqn:Hhi; cbn [negb].
  - apply Qle_bool_iff in Hhi. right. right. split; [lra | reflexivity].
  - apply Qle_bool_false in Hhi. cbn [lt].
    destruct (Qle_bool q 0.0) eqn:Hlo; cbn [negb].
    + apply Qle_bool_iff in Hlo. left. split; [lra | reflexivity].
    + apply Qle_bool_false in Hlo. right. left. repeat split; lra.
Qed.

Lemma py_round2_monotone (p q : Q) :
  (p <= q)%Q -> le (py_round2 (Finite p)) (py_round2 (Finite q)) = true.
Proof.
  intros H. cbn [py_round2 le]. apply Qle_bool_iff.
  assert (Hm : (round_half_even (p * 100) <= round_half_even (q * 100))%Z)
    by (apply round_half_even_monotone; lra).
  unfold Qle. cbn. lia.
Qed.

End RoundingFacts.

(* ------------------------------------------------------------------ *)
(** ** Further facts about the label encoder *)

Module EncoderOrder.
Import LabelEncoder LabelEncoderFacts.

Lemma sorted_nth_lt (l : list string) (i j : nat) (a b : string) :
  StronglySorted slt l -> (i < j)%nat ->
  nth_error l i = Some a -> nth_error l j = Some b -> slt a b.
Proof.
  intros Hs. revert i j.
  induction Hs as [| y t Ht IH Hy]; intros i j Hij Ha Hb.
  - destruct i; discriminate Ha.
  - destruct j as [| j]; [lia |]. cbn in Hb.
    destruct i as [| i]; cbn in Ha.
    + inversion Ha; subst. rewrite Forall_forall in Hy.
      apply Hy. eapply nth_error_In, Hb.
    + apply (IH i j); [lia | assumption | assumption].
Qed.

Lemma transform_Some_nth (l : list string) (v : string) (i : nat) :
  transform (fit l) v = Some i -> nth_error (unique l) i = Some v.
Proof. apply index_of_nth. Qed.

Lemma transform_Some_In (l : list string) (v : string) (i : nat) :
  transform (fit l) v = Some i -> In v l.
Proof.
  intros H. apply unique_In. eapply nth_error_In, transform_Some_nth, H.
Qed.


Lemma transform_Some_bound (l : list string) (v : string) (i : nat) :
  transform (fit l) v = Some i ->
  In v l /\ (i < List.length (unique l))%nat.
Proof.
  intros H. split; [eapply transform_Some_In, H |].
  apply transform_Some_nth in H. apply nth_error_Some. congruence.
Qed.

End EncoderOrder.

(* ------------------------------------------------------------------ *)
(** ** Runs of the handler of [main.py] *)

Module HandlerRuns.
Import Main.

Lemma bind_inl {A B} (m : M A) (k : A -> M B) tr e tr' :
  bind m k tr = (inl e, tr') ->
  m tr = (inl e, tr')
  \/ exists a tr1, m tr = (inr a, tr1) /\ k a tr1 = (inl e, tr').
Proof.
  unfold bind. destruct (m tr) as [[e0 | a] tr1]; intros H.
  - left. inversion H; reflexivity.
  - right. now exists a, tr1.
Qed.

Lemma encoder_transform_inl enc v tr e tr' :
  encoder_transform enc v tr = (inl e, tr') -> plain e.
Proof.
  unfold encoder_transform, bind, tell, ret, raise.
  destruct enc as [c |].
  - destruct (LabelEncoder.transform c v); intros H; inversion H; subst.
    intros s d; discriminate.
  - intros H; inversion H; subst. intros s d; discriminate.
Qed.

Lemma scaler_transform_inl sc x tr e tr' :
  scaler_transform sc x tr = (inl e, tr') -> plain e.
Proof.
  unfold scaler_transform, bind, tell, ret, raise.
  destruct sc as [c |].
  - destruct (standardize c x); intros H; inversion H; subst.
    intros s d; discriminate.
  - intros H; inversion H; subst. intros s d; discriminate.
Qed.

Lemma model_predict_inl mo x tr e tr' :
  model_predict mo x tr = (inl e, tr') -> plain e.
Proof.
  unfold model_predict, bind, tell, ret, raise.
  destruct mo as [c |].
  - destruct (predict0 c x); intros H; inversion H; subst.
    intros s d; discriminate.
  - intros H; inversion H; subst. intros s d; discriminate.
Qed.

(** Everything a successful run of the handler has done. *)
Lemma predict_graduation_rate_trace (g : globals) (d : PredictionInput)
    (tr : list call) (out : PredictionOutput) (tr' : list call) :
  predict_graduation_rate g d tr = (inr out, tr') ->
  exists ec ef sc m i j scaled raw,
    country_encoder g = Some ec /\ field_encoder g = Some ef
    /\ scaler g = Some sc /\ model g = Some m
    /\ LabelEncoder.transform ec (country d) = Some i
    /\ LabelEncoder.transform ef (stem_field d) = Some j
    /\ standardize sc
         [of_int (year d); female_enrollment_percent d; gender_gap_index d;
          of_int (Z.of_nat i); of_int (Z.of_nat j)] = Some scaled
    /\ predict0 m scaled = Some raw
    /\ tr' = (tr ++ [EncoderTransform (LabelEncoder.classes_ ec) (country d);
                     EncoderTransform (LabelEncoder.classes_ ef) (stem_field d);
                     ScalerTransform
                       [of_int (year d); female_enrollment_percent d;
                        gender_gap_index d;
                        of_int (Z.of_nat i); of_int (Z.of_nat j)];
                     ModelPredict scaled])%list
    /\ out = {| predicted_graduation_rate := py_round2 (clamp raw);
                model_used := "SGD Regressor";
                input_features :=
                  {| f_year := year d;
                     f_female_enrollment_percent := female_enrollment_percent d;
                     f_gender_gap_index := gender_gap_index d;
                     country_encoded := Z.of_nat i;
                     stem_field_encoded := Z.of_nat j;
                     country_name := country d;
                     stem_field_name := stem_field d |};
                model_confidence := confidence_score_of d;
                data_quality := "excellent";
                country_rank := Z.of_nat i + 1;
                field_rank := Z.of_nat j + 1 |}.
Proof.
  unfold predict_graduation_rate. intros H.
  apply try_except_inr in H.
  2:{ intros e t x t'. destruct e; discriminate. }
  apply bind_inr in H as (u1 & t1 & H1 & H).
  apply bind_inr in H as (u2 & t2 & H2 & H).
  apply bind_inr in H as (i & t3 & H3 & H).
  apply bind_inr in H as (j & t4 & H4 & H).
  apply bind_inr in H as (scaled & t5 & H5 & H).
  apply bind_inr in H as (raw & t6 & H6 & H).
  assert (E1 : t1 = tr).
  { destruct (negb (mem (country d) COUNTRIES)); inversion H1; reflexivity. }
  assert (E2 : t2 = t1).
  { destruct (negb (mem (stem_field d) STEM_FIELDS)); inversion H2; reflexivity. }
  subst t1 t2.
  apply encoder_transform_inr in H3 as (ec & Hec & Ti & ->).
  apply encoder_transform_inr in H4 as (ef & Hef & Tj & ->).
  apply scaler_transform_inr in H5 as (sc & Hsc & Hs & ->).
  apply model_predict_inr in H6 as (m & Hm & Hr & ->).
  unfold ret in H. inversion H; subst.
  exists ec, ef, sc, m, i, j, scaled, raw.
  repeat (split; [assumption |]).
  split; [| reflexivity].
  rewrite <- !app_assoc. reflexivity.
Qed.

(** An error of the handler on a body with supported categories is the
    500 answer built from a plain exception. *)
Lemma predict_graduation_rate_inl (g : globals) (d : PredictionInput)
    (tr : list call) (e : exn) (tr' : list call) :
  mem (country d) COUNTRIES = true ->
  mem (stem_field d) STEM_FIELDS = true ->
  predict_graduation_rate g d tr = (inl e, tr') ->
  exists cause, plain cause /\ e = prediction_failed cause.
Proof.
  intros Hc Hf. unfold predict_graduation_rate, try_except.
  rewrite Hc, Hf. cbn [negb].
  match goal with
  | |- (match ?inner tr with _ => _ end) = _ -> _ =>
      destruct (inner tr) as [[e0 | x] t0] eqn:Hinner
  end; [| discriminate].
  assert (Hplain : plain e0).
  { apply bind_inl in Hinner as [H | (u1 & t1 & _ & Hinner)]; [discriminate H |].
    apply bind_inl in Hinner as [H | (u2 & t2 & _ & Hinner)]; [discriminate H |].
    apply bind_inl in Hinner as [H | (i & t3 & _ & Hinner)];
      [eapply encoder_transform_inl, H |].
    apply bind_inl in Hinner as [H | (j & t4 & _ & Hinner)];
      [eapply encoder_transform_inl, H |].
    apply bind_inl in Hinner as [H | (sc & t5 & _ & Hinner)];
      [eapply scaler_transform_inl, H |].
    apply bind_inl in Hinner as [H | (raw & t6 & _ & Hinner)];
      [eapply model_predict_inl, H |].
    discriminate Hinner. }
  intros H. exists e0. split; [exact Hplain |].
  destruct e0; try (inversion H; reflexivity).
  destruct (Hplain status_code detail eq_refl).
Qed.

End HandlerRuns.

(* ------------------------------------------------------------------ *)
(** ** Runs of [STEMPredictionService.predict] *)

Module ServiceRuns.

(** Everything a successful run of [predict] has done. *)
Lemma predict_trace (self : Prediction.STEMPredictionService)
    (y : Z) (fe ggi : pyfloat) (c f : string)
    (tr : list call) (out : Prediction.result) (tr' : list call) :
  Prediction.predict self y fe ggi c f tr = (inr out, tr') ->
  exists ec ef sc m i j scaled raw,
    Prediction.country_encoder self = Some ec
    /\ Prediction.field_encoder self = Some ef
    /\ Prediction.scaler self = Some sc /\ Prediction.model self = Some m
    /\ LabelEncoder.transform ec c = Some i
    /\ LabelEncoder.transform ef f = Some j
    /\ standardize sc
         [of_int y; fe; ggi; of_int (Z.of_nat i); of_int (Z.of_nat j)]
       = Some scaled
    /\ predict0 m scaled = Some raw
    /\ tr' = (tr ++ [EncoderTransform (LabelEncoder.classes_ ec) c;
                     EncoderTransform (LabelEncoder.classes_ ef) f;
                     ScalerTransform
                       [of_int y; fe; ggi;
                        of_int (Z.of_nat i); of_int (Z.of_nat j)];
                     ModelPredict scaled])%list
    /\ out = {| Prediction.predicted_graduation_rate := py_round2 (clamp raw);
                Prediction.model_used := "SGD Regressor";
                Prediction.r_year := y;
                Prediction.r_female_enrollment_percent := fe;
                Prediction.r_gender_gap_index := ggi;
                Prediction.r_country := c;
                Prediction.r_stem_field := f;
                Prediction.country_encoded := Z.of_nat i;
                Prediction.stem_field_encoded := Z.of_nat j;
                Prediction.r_feature_names := Prediction.feature_names self |}.
Proof.
  unfold Prediction.predict.
  destruct (Prediction.validate_input self y fe ggi c f) as [[|] msg];
    cbn [negb]; [| discriminate].
  intros H.
  apply bind_inr in H as ([[scaled i] j] & t1 & Hpre & H).
  apply bind_inr in H as (raw & t2 & Hraw & H).
  unfold Prediction.preprocess_input in Hpre.
  apply bind_inr in Hpre as (i' & t3 & H3 & Hpre).
  apply bind_inr in Hpre as (j' & t4 & H4 & Hpre).
  apply bind_inr in Hpre as (scaled' & t5 & H5 & Hpre).
  unfold ret in Hpre. inversion Hpre; subst i' j' scaled' t5. clear Hpre.
  apply encoder_transform_inr in H3 as (ec & Hec & Ti & ->).
  apply encoder_transform_inr in H4 as (ef & Hef & Tj & ->).
  apply scaler_transform_inr in H5 as (sc & Hsc & Hs & ->).
  apply model_predict_inr in Hraw as (m & Hm & Hr & ->).
  unfold ret in H. inversion H; subst.
  exists ec, ef, sc, m, i, j, scaled, raw.
  repeat (split; [assumption |]).
  split; [| reflexivity].
  rewrite <- !app_assoc. reflexivity.
Qed.

End ServiceRuns.

(* ------------------------------------------------------------------ *)
(** ** Facts about API/schemas/input_schema.py *)

Module SchemaFacts.
Import InputSchema.

Lemma CountryEnum_of_Some (v : string) :
  In v Main.COUNTRIES ->
  exists e, CountryEnum_of v = Some e /\ CountryEnum_value e = v.
Proof.
  intros Hin. unfold CountryEnum_of.
  destruct (find (fun c => String.eqb (CountryEnum_value c) v) CountryEnum_members)
    as [e |] eqn:E.
  - apply find_some in E as [_ E]. apply String.eqb_eq in E. now exists e.
  - exfalso.
    change Main.COUNTRIES with (map CountryEnum_value CountryEnum_members) in Hin.
    apply in_map_iff in Hin as (e & Ev & He).
    pose proof (find_none _ _ E e He) as N. cbn beta in N.
    rewrite Ev, String.eqb_refl in N. discriminate N.
Qed.

Lemma CountryEnum_of_In (v : string) (e : CountryEnum) :
  CountryEnum_of v = Some e -> In v Main.COUNTRIES /\ CountryEnum_value e = v.
Proof.
  unfold CountryEnum_of. intros E. apply find_some in E as [_ E].
  apply String.eqb_eq in E. split; [| exact E].
  subst v. destruct e; apply mem_In; reflexivity.
Qed.

Lemma STEMFieldEnum_of_Some (v : string) :
  In v Main.STEM_FIELDS ->
  exists e, STEMFieldEnum_of v = Some e /\ STEMFieldEnum_value e = v.
Proof.
  intros Hin. unfold STEMFieldEnum_of.
  destruct (find (fun c => String.eqb (STEMFieldEnum_value c) v)
              STEMFieldEnum_members) as [e |] eqn:E.
  - apply find_some in E as [_ E]. apply String.eqb_eq in E. now exists e.
  - exfalso.
    change Main.STEM_FIELDS
      with (map STEMFieldEnum_value STEMFieldEnum_members) in Hin.
    apply in_map_iff in Hin as (e & Ev & He).
    pose proof (find_none _ _ E e He) as N. cbn beta in N.
    rewrite Ev, String.eqb_refl in N. discriminate N.
Qed.

Lemma STEMFieldEnum_of_In (v : string) (e : STEMFieldEnum) :
  STEMFieldEnum_of v = Some e ->
  In v Main.STEM_FIELDS /\ STEMFieldEnum_value e = v.
Proof.
  unfold STEMFieldEnum_of. intros E. apply find_some in E as [_ E].
  apply String.eqb_eq in E. split; [| exact E].
  subst v. destruct e; apply mem_In; reflexivity.
Qed.

(** After the bounds of [Field], the range test of a validator is false. *)
Lemma validator_test (lo hi : Q) (x : pyfloat) :
  float_in_range lo hi x ->
  (lt x (Finite lo) || gt x (Finite hi))%bool = false.
Proof.
  intros (q & -> & H1 & H2). unfold gt. cbn [lt].
  apply orb_false_iff. split; apply negb_false_iff, Qle_bool_iff; assumption.
Qed.

Lemma py_round3_in_range (x : pyfloat) :
  float_in_range 0 1 x -> float_in_range 0 1 (py_round3 x).
Proof.
  intros (q & -> & H0 & H1). cbn [py_round3].
  destruct (round_half_even_bounds (q * 1000) 0 1000) as [A B].
  - change (inject_Z 0) with 0%Q. lra.
  - change (inject_Z 1000) with (1000 # 1)%Q. lra.
  - eexists. split; [reflexivity |]. split; unfold Qle; cbn; lia.
Qed.

Lemma py_round2_in_range (x : pyfloat) :
  float_in_range 0 100 x -> float_in_range 0 100 (py_round2 x).
Proof.
  intros (q & -> & H0 & H1). cbn [py_round2].
  destruct (round_half_even_bounds (q * 100) 0 10000) as [A B].
  - change (inject_Z 0) with 0%Q. lra.
  - change (inject_Z 10000) with (10000 # 1)%Q. lra.
  - eexists. split; [reflexivity |]. split; unfold Qle; cbn; lia.
Qed.

Lemma py_round2_idempotent (x : pyfloat) : py_round2 (py_round2 x) = py_round2 x.
Proof.
  destruct x as [q | | |]; try reflexivity. cbn [py_round2].
  change ((round_half_even (q * 100) # 100) * 100)%Q
    with ((round_half_even (q * 100) # 100) * inject_Z (Zpos 100))%Q.
  now rewrite round_half_even_fixed.
Qed.

Lemma py_round3_idempotent (x : pyfloat) : py_round3 (py_round3 x) = py_round3 x.
Proof.
  destruct x as [q | | |]; try reflexivity. cbn [py_round3].
  change ((round_half_even (q * 1000) # 1000) * 1000)%Q
    with ((round_half_even (q * 1000) # 1000) * inject_Z (Zpos 1000))%Q.
  now rewrite round_half_even_fixed.
Qed.

(** The schema on a body that [main.py] accepts. *)
Lemma PredictionInput_accepts (body : Main.PredictionInput) :
  Main.PredictionInput_errors body = [] ->
  PredictionInput body
  = inr {| Main.year := Main.year body;
           Main.female_enrollment_percent :=
             py_round2 (Main.female_enrollment_percent body);
           Main.gender_gap_index := py_round3 (Main.gender_gap_index body);
           Main.country := Main.country body;
           Main.stem_field := Main.stem_field body |}.
Proof.
  intros Hv.
  apply MainFacts.PredictionInput_errors_nil in Hv as (H1 & H2 & H3 & H4 & H5).
  unfold PredictionInput, float_field, enum_field.
  rewrite (proj2 (MainFacts.number_errors_nil "year" 2000 2030 _)
             (proj2 (MainFacts.of_int_in_range _) H1)).
  rewrite (float_in_range_compat 0 100 0.0 100.0) in H2 by reflexivity.
  rewrite (float_in_range_compat 0 1 0.0 1.0) in H3 by reflexivity.
  rewrite (proj2 (MainFacts.number_errors_nil _ _ _ _) H2).
  rewrite (proj2 (MainFacts.number_errors_nil _ _ _ _) H3).
  unfold validate_enrollment, validate_gender_gap.
  rewrite (float_in_range_compat 0.0 100.0 0 100) in H2 by reflexivity.
  rewrite (float_in_range_compat 0.0 1.0 0 1) in H3 by reflexivity.
  rewrite (validator_test _ _ _ H2), (validator_test _ _ _ H3).
  destruct (CountryEnum_of_Some _ H4) as (e & -> & ->).
  destruct (STEMFieldEnum_of_Some _ H5) as (s & -> & ->).
  reflexivity.
Qed.

(** The schema accepts no other body. *)
Lemma PredictionInput_inr (body v : Main.PredictionInput) :
  PredictionInput body = inr v -> Main.PredictionInput_errors body = [].
Proof.
  unfold PredictionInput, float_field, enum_field. intros H.
  apply MainFacts.PredictionInput_errors_nil.
  destruct (Main.number_errors "year" 2000 2030 (of_int (Main.year body)))
    eqn:E1; [| discriminate H].
  destruct (Main.number_errors "female_enrollment_percent" 0.0 100.0
              (Main.female_enrollment_percent body)) eqn:E2.
  2:{ destruct (Main.number_errors "gender_gap_index" 0.0 1.0
                  (Main.gender_gap_index body));
        try destruct (validate_gender_gap (Main.gender_gap_index body));
        discriminate H. }
  destruct (validate_enrollment (Main.female_enrollment_percent body));
    [destruct (Main.number_errors "gender_gap_index" 0.0 1.0
                 (Main.gender_gap_index body));
       try destruct (validate_gender_gap (Main.gender_gap_index body));
       discriminate H |].
  destruct (Main.number_errors "gender_gap_index" 0.0 1.0
              (Main.gender_gap_index body)) eqn:E3; [| discriminate H].
  destruct (validate_gender_gap (Main.gender_gap_index body)); [discriminate H |].
  destruct (CountryEnum_of (Main.country body)) as [e |] eqn:E4;
    [| discriminate H].
  destruct (STEMFieldEnum_of (Main.stem_field body)) as [s |] eqn:E5;
    [| discriminate H].
  apply MainFacts.number_errors_nil in E1, E2, E3.
  apply MainFacts.of_int_in_range in E1.
  rewrite (float_in_range_compat 0.0 100.0 0 100) in E2 by reflexivity.
  rewrite (float_in_range_compat 0.0 1.0 0 1) in E3 by reflexivity.
  apply CountryEnum_of_In in E4 as [E4 _].
  apply STEMFieldEnum_of_In in E5 as [E5 _].
  auto.
Qed.

End SchemaFacts.

(* ------------------------------------------------------------------ *)
(** ** Further properties of the code *)

(** X1.  Reported rate, edge cases.  The rate both pipelines report is
    [round(max(0.0, min(100.0, raw)), 2)].  A raw output that is [NaN] or
    [+inf], or at least 100, is reported as 100.0 ([min] keeps its first
    argument when the comparison with [NaN] is false); [-inf] and every raw
    output of at most 0 are reported as 0.0; a raw output strictly between
    0 and 100 is only rounded. *)
Theorem reported_rate_cases :
  forall (raw : pyfloat),
    let rate := py_round2 (clamp raw) in
    match raw with
    | NaN | PosInf => rate = Finite (10000 # 100)
    | NegInf => rate = Finite (0 # 100)
    | Finite q =>
        ((q <= 0)%Q -> rate = Finite (0 # 100))
        /\ ((100 <= q)%Q -> rate = Finite (10000 # 100))
        /\ ((0 < q)%Q -> (q < 100)%Q -> rate = py_round2 raw)
    end.
Proof.
  intros [q | | |]; cbv zeta; try reflexivity.
  destruct (clamp_Finite q) as [[H ->] | [(H1 & H2 & ->) | [H ->]]].
  - repeat split; intros; try reflexivity; exfalso; lra.
  - repeat split; intros; try reflexivity; exfalso; lra.
  - repeat split; intros; try reflexivity; exfalso; lra.
Qed.

(** A raw output of 250 is reported as 100.0 and one of -3 as 0.0. *)
Lemma reported_rate_cases_witness :
  py_round2 (clamp (Finite 250)) = Finite (10000 # 100)
  /\ py_round2 (clamp (Finite (-3))) = Finite (0 # 100).
Proof.
  split.
  - apply (reported_rate_cases (Finite 250)). unfold Qle. cbn. lia.
  - apply (reported_rate_cases (Finite (-3))). unfold Qle. cbn. lia.
Defined.



(** X3.  Reported rate, monotonicity.  A larger raw output never gives a smaller
    reported rate: clamping and rounding both preserve [<=]. *)
Theorem reported_rate_monotone :
  forall (a b : pyfloat),
    le a b = true ->
    le (py_round2 (clamp a)) (py_round2 (clamp b)) = true.
Proof.
  assert (Hstep : forall p q c d,
             (c <= d)%Q -> clamp p = Finite c -> clamp q = Finite d ->
             le (py_round2 (clamp p)) (py_round2 (clamp q)) = true).
  { intros p q c d Hcd -> ->. now apply py_round2_monotone. }
  assert (Hfin : forall q, exists c,
             clamp (Finite q) = Finite c /\ (0 <= c)%Q /\ (c <= 100)%Q
             /\ ((q <= 0)%Q -> (c == 0)%Q) /\ ((100 <= q)%Q -> (c == 100)%Q)
             /\ ((0 < q)%Q -> (q < 100)%Q -> c = q)).
  { intros q. destruct (clamp_Finite q) as [[H ->] | [(H1 & H2 & ->) | [H ->]]].
    - exists 0.0%Q. repeat split; intros; try lra; exfalso; lra.
    - exists q. repeat split; intros; try lra; reflexivity.
    - exists 100.0%Q. repeat split; intros; try lra; exfalso; lra. }
  intros [p | | |] [q | | |]; cbn [le]; intros H; try discriminate H.
  - apply Qle_bool_iff in H.
    destruct (Hfin p) as (c & Ec & Hc0 & Hc1 & Hclo & Hchi & Hcmid).
    destruct (Hfin q) as (d & Ed & Hd0 & Hd1 & Hdlo & Hdhi & Hdmid).
    apply (Hstep _ _ c d); [| exact Ec | exact Ed].
    destruct (Qlt_le_dec 0 p) as [Lp | Lp];
      destruct (Qlt_le_dec p 100) as [Up | Up];
      destruct (Qlt_le_dec 0 q) as [Lq | Lq];
      destruct (Qlt_le_dec q 100) as [Uq | Uq];
      try (exfalso; lra);
      try (rewrite (Hcmid Lp Up)); try (rewrite (Hdmid Lq Uq));
      try (rewrite (Hclo Lp)); try (rewrite (Hdlo Lq));
      try (rewrite (Hchi Up)); try (rewrite (Hdhi Uq)); lra.
  - destruct (Hfin p) as (c & Ec & Hc0 & Hc1 & _).
    apply (Hstep _ _ c 100.0%Q); [lra | exact Ec | reflexivity].
  - reflexivity.
  - destruct (Hfin q) as (d & Ed & Hd0 & Hd1 & _).
    apply (Hstep _ _ 0.0%Q d); [lra | reflexivity | exact Ed].
  - reflexivity.
  - reflexivity.
Qed.

Lemma reported_rate_monotone_witness :
  le (py_round2 (clamp (Finite 41.2))) (py_round2 (clamp PosInf)) = true.
Proof. apply (reported_rate_monotone (Finite 41.2) PosInf). reflexivity. Defined.

(** X4.  Label codes follow the alphabet.  For two labels of the fitted set,
    the code of one is smaller than the code of the other exactly when the
    label comes first in lexicographic order, and the codes are equal only
    for equal labels. *)
Theorem encoding_preserves_order :
  forall (l : list string) (a b : string),
    In a l -> In b l ->
    exists i j,
      LabelEncoder.transform (LabelEncoder.fit l) a = Some i
      /\ LabelEncoder.transform (LabelEncoder.fit l) b = Some j
      /\ (LabelEncoder.slt a b <-> (i < j)%nat)
      /\ (a = b <-> i = j).
Proof.
  intros l a b Ha Hb.
  pose proof (LabelEncoderFacts.transform_fit_rank l a Ha) as Ei.
  pose proof (LabelEncoderFacts.transform_fit_rank l b Hb) as Ej.
  exists (LabelEncoder.rank l a), (LabelEncoder.rank l b).
  split; [exact Ei |]. split; [exact Ej |].
  pose proof (EncoderOrder.transform_Some_nth _ _ _ Ei) as Ni.
  pose proof (EncoderOrder.transform_Some_nth _ _ _ Ej) as Nj.
  pose proof (LabelEncoderFacts.unique_sorted l) as Hs.
  set (i := LabelEncoder.rank l a) in *. set (j := LabelEncoder.rank l b) in *.
  destruct (Nat.lt_trichotomy i j) as [L | [E | L]].
  - pose proof (EncoderOrder.sorted_nth_lt _ _ _ _ _ Hs L Ni Nj) as Hab.
    split; [tauto |]. split; [| lia].
    intros ->. destruct (LabelEncoderFacts.slt_irrefl _ Hab).
  - assert (Eab : a = b) by congruence.
    split; [| tauto]. split; [| lia].
    intros Hab. subst b. destruct (LabelEncoderFacts.slt_irrefl _ Hab).
  - pose proof (EncoderOrder.sorted_nth_lt _ _ _ _ _ Hs L Nj Ni) as Hba.
    split.
    + split; [| lia]. intros Hab.
      destruct (LabelEncoderFacts.slt_asym _ _ Hab Hba).
    + split; [| lia]. intros ->. destruct (LabelEncoderFacts.slt_irrefl _ Hba).
Qed.

(** ["Canada"] comes before ["India"] in the list of [main.py] and has the
    smaller code. *)
Lemma encoding_preserves_order_witness :
  exists i j,
    LabelEncoder.transform (LabelEncoder.fit Main.COUNTRIES) "Canada" = Some i
    /\ LabelEncoder.transform (LabelEncoder.fit Main.COUNTRIES) "India" = Some j
    /\ (i < j)%nat.
Proof.
  destruct (encoding_preserves_order Main.COUNTRIES "Canada" "India")
    as (i & j & Ei & Ej & Hlt & _).
  - apply mem_In. reflexivity.
  - apply mem_In. reflexivity.
  - exists i, j. split; [exact Ei |]. split; [exact Ej |].
    apply Hlt. reflexivity.
Defined.


(** X6.  Errors of [POST /predict].  The endpoint fails in two ways only: with
    the validation errors of pydantic, before anything is called, or with
    the 500 answer ["Prediction Failed"] built from a plain exception.  The
    400 answers of the handler are never produced: a body that reaches the
    handler has passed the validators, which use the same two lists. *)
Theorem post_predict_errors :
  forall (g : Main.globals) (body : Main.PredictionInput)
         (tr : list call) (e : exn) (tr' : list call),
    Main.post_predict g body tr = (inl e, tr') ->
    (forall d, e <> HTTPException 400 d)
    /\ ((Main.PredictionInput_errors body <> []
         /\ e = RequestValidationError (Main.PredictionInput_errors body)
         /\ tr' = tr)
        \/ (Main.PredictionInput_errors body = []
            /\ exists cause, plain cause /\ e = Main.prediction_failed cause)).
Proof.
  intros g body tr e tr' H. unfold Main.post_predict in H.
  destruct (Main.PredictionInput_errors body) as [| x xs] eqn:Herr.
  - apply MainFacts.PredictionInput_errors_nil in Herr as (_ & _ & _ & Hc & Hf).
    apply mem_In in Hc, Hf.
    destruct (HandlerRuns.predict_graduation_rate_inl _ _ _ _ _ Hc Hf H)
      as (cause & Hp & ->).
    split; [intros d; discriminate |].
    right. split; [reflexivity |]. now exists cause.
  - inversion H; subst.
    split; [intros d; discriminate |].
    left. split; [discriminate |]. split; reflexivity.
Qed.

(** An unknown country on loaded globals: the answer is the validation
    error, not the 400 of the handler. *)
Lemma post_predict_errors_witness :
  let body := {| Main.year := 2024;
                 Main.female_enrollment_percent := Finite 45.5;
                 Main.gender_gap_index := Finite 0.75;
                 Main.country := "Atlantis";
                 Main.stem_field := "Biology" |} in
  exists e,
    Main.post_predict (globals_with example_model) body [] = (inl e, [])
    /\ e <> Main.invalid_country "Atlantis".
Proof.
  intros body. eexists. split; [reflexivity |].
  refine (proj1 (post_predict_errors (globals_with example_model) body [] _ []
                   eq_refl) _).
Defined.

(** X7.  Calls of a successful [POST /predict].  Each collaborator is called
    exactly once and in this order: the country encoder, the field encoder,
    the scaler on [year, enrollment, gender gap index, country code, field
    code], and the regressor on what the scaler returned.  The codes in the
    response are the ones that were given to the scaler. *)
Theorem post_predict_calls :
  forall (g : Main.globals) (body : Main.PredictionInput)
         (tr : list call) (out : Main.PredictionOutput) (tr' : list call),
    Main.post_predict g body tr = (inr out, tr') ->
    exists ec ef sc i j scaled,
      Main.country_encoder g = Some ec /\ Main.field_encoder g = Some ef
      /\ Main.scaler g = Some sc
      /\ standardize sc
           [of_int (Main.year body); Main.female_enrollment_percent body;
            Main.gender_gap_index body;
            of_int (Z.of_nat i); of_int (Z.of_nat j)] = Some scaled
      /\ tr' = (tr ++ [EncoderTransform (LabelEncoder.classes_ ec) (Main.country body);
                       EncoderTransform (LabelEncoder.classes_ ef) (Main.stem_field body);
                       ScalerTransform
                         [of_int (Main.year body);
                          Main.female_enrollment_percent body;
                          Main.gender_gap_index body;
                          of_int (Z.of_nat i); of_int (Z.of_nat j)];
                       ModelPredict scaled])%list
      /\ Main.country_encoded (Main.input_features out) = Z.of_nat i
      /\ Main.stem_field_encoded (Main.input_features out) = Z.of_nat j.
Proof.
  intros g body tr out tr' H. unfold Main.post_predict in H.
  destruct (Main.PredictionInput_errors body); [| discriminate H].
  apply HandlerRuns.predict_graduation_rate_trace in H
    as (ec & ef & sc & m & i & j & scaled & raw
        & Hec & Hef & Hsc & _ & _ & _ & Hs & _ & Htr & ->).
  exists ec, ef, sc, i, j, scaled.
  repeat (split; [assumption |]). split; reflexivity.
Qed.

Lemma post_predict_calls_witness :
  exists out tr',
    Main.post_predict (globals_with example_model) example_request []
    = (inr out, tr')
    /\ List.length tr' = 4%nat.
Proof.
  destruct (Main.post_predict (globals_with example_model) example_request [])
    as [[e | out] tr'] eqn:Hrun; [vm_compute in Hrun; discriminate Hrun |].
  exists out, tr'. split; [reflexivity |].
  destruct (post_predict_calls _ _ _ _ _ Hrun)
    as (ec & ef & sc & i & j & scaled & _ & _ & _ & _ & -> & _).
  reflexivity.
Defined.

(** X8.  Input of the regressor.  After a startup, in a successful
    [POST /predict] the regressor receives the request standardized with
    the constants of the loader. *)
Theorem post_predict_regressor_input :
  forall (fs : artifact) (coef_ : list Q) (intercept_ : Q) (g : Main.globals)
         (body : Main.PredictionInput) (tr : list call)
         (out : Main.PredictionOutput) (tr' : list call),
    Main.startup_event fs coef_ intercept_ = inr g ->
    Main.post_predict g body tr = (inr out, tr') ->
    exists a b rest,
      Main.female_enrollment_percent body = Finite a
      /\ Main.gender_gap_index body = Finite b
      /\ tr' = (rest ++
          [ModelPredict
             [Finite ((inject_Z (Main.year body) - 2018.0) / 5.0);
              Finite ((a - 50.0) / 15.0);
              Finite ((b - 0.7) / 0.15);
              Finite ((inject_Z (Z.of_nat
                         (LabelEncoder.rank Main.COUNTRIES (Main.country body)))
                       - 5.0) / 3.0);
              Finite ((inject_Z (Z.of_nat
                         (LabelEncoder.rank Main.STEM_FIELDS (Main.stem_field body)))
                       - 1.5) / 1.2)]])%list.
Proof.
  intros fs coef_ intercept_ g body tr out tr' Hs H.
  apply MainFacts.startup_event_globals in Hs as (m & -> & _).
  pose proof (HandlerFacts.post_predict_inr _ _ _ _ _ H) as [Hv _].
  apply MainFacts.PredictionInput_errors_nil in Hv
    as (_ & (a & Ea & _) & (b & Eb & _) & Hc & Hf).
  unfold Main.post_predict in H.
  destruct (Main.PredictionInput_errors body); [| discriminate H].
  apply HandlerRuns.predict_graduation_rate_trace in H
    as (ec & ef & sc & m' & i & j & scaled & raw
        & Hec & Hef & Hsc & _ & Ti & Tj & Hstd & _ & -> & _).
  cbn [Main.country_encoder Main.field_encoder Main.scaler] in Hec, Hef, Hsc.
  inversion Hec; inversion Hef; inversion Hsc; subst ec ef sc.
  rewrite (LabelEncoderFacts.transform_fit_rank _ _ Hc) in Ti.
  rewrite (LabelEncoderFacts.transform_fit_rank _ _ Hf) in Tj.
  inversion Ti; inversion Tj; subst i j.
  rewrite Ea, Eb in Hstd.
  remember (LabelEncoder.rank Main.COUNTRIES (Main.country body)) as ci.
  remember (LabelEncoder.rank Main.STEM_FIELDS (Main.stem_field body)) as fi.
  cbn in Hstd. inversion Hstd; subst scaled.
  exists a, b.
  match goal with
  | |- exists rest, _ /\ _ /\ (tr ++ [?c1; ?c2; ?c3; _])%list = _ =>
      exists (tr ++ [c1; c2; c3])%list
  end.
  split; [exact Ea |]. split; [exact Eb |].
  subst ci fi. rewrite <- app_assoc. reflexivity.
Qed.

Lemma post_predict_regressor_input_witness :
  exists out tr' rest,
    Main.post_predict (globals_with example_model) example_request []
    = (inr out, tr')
    /\ tr' = (rest ++
         [ModelPredict
            [Finite ((inject_Z 2024 - 2018.0) / 5.0);
             Finite ((45.5 - 50.0) / 15.0);
             Finite ((0.75 - 0.7) / 0.15);
             Finite ((inject_Z (Z.of_nat
                        (LabelEncoder.rank Main.COUNTRIES "United States"))
                      - 5.0) / 3.0);
             Finite ((inject_Z (Z.of_nat
                        (LabelEncoder.rank Main.STEM_FIELDS "Computer Science"))
                      - 1.5) / 1.2)]])%list.
Proof.
  destruct (Main.post_predict (globals_with example_model) example_request [])
    as [[e | out] tr'] eqn:Hrun; [vm_compute in Hrun; discriminate Hrun |].
  destruct (post_predict_regressor_input (Stored example_model) [] 0%Q
              (globals_with example_model) example_request [] out tr'
              eq_refl Hrun)
    as (a & b & rest & Ea & Eb & Htr).
  cbn in Ea, Eb. inversion Ea; inversion Eb; subst a b.
  exists out, tr', rest. split; [reflexivity | exact Htr].
Defined.

(** X9.  Response of [POST /predict].  A response echoes the five fields of the
    request, names the model ["SGD Regressor"], and gives ranks that are
    the codes plus one.  After a startup the country code is the
    alphabetical rank of the country among the eleven countries, hence in
    [0, 11), and the field code is in [0, 4). *)
Theorem post_predict_response :
  forall (fs : artifact) (coef_ : list Q) (intercept_ : Q) (g : Main.globals)
         (body : Main.PredictionInput) (tr : list call)
         (out : Main.PredictionOutput) (tr' : list call),
    Main.startup_event fs coef_ intercept_ = inr g ->
    Main.post_predict g body tr = (inr out, tr') ->
    let f := Main.input_features out in
    Main.f_year f = Main.year body
    /\ Main.f_female_enrollment_percent f = Main.female_enrollment_percent body
    /\ Main.f_gender_gap_index f = Main.gender_gap_index body
    /\ Main.country_name f = Main.country body
    /\ Main.stem_field_name f = Main.stem_field body
    /\ Main.model_used out = "SGD Regressor"
    /\ Main.country_encoded f
       = Z.of_nat (LabelEncoder.rank Main.COUNTRIES (Main.country body))
    /\ Main.stem_field_encoded f
       = Z.of_nat (LabelEncoder.rank Main.STEM_FIELDS (Main.stem_field body))
    /\ (0 <= Main.country_encoded f < 11)%Z
    /\ (0 <= Main.stem_field_encoded f < 4)%Z
    /\ Main.country_rank out = (Main.country_encoded f + 1)%Z
    /\ Main.field_rank out = (Main.stem_field_encoded f + 1)%Z.
Proof.
  intros fs coef_ intercept_ g body tr out tr' Hs H. cbv zeta.
  apply MainFacts.startup_event_globals in Hs as (m & -> & _).
  unfold Main.post_predict in H.
  destruct (Main.PredictionInput_errors body); [| discriminate H].
  apply HandlerRuns.predict_graduation_rate_trace in H
    as (ec & ef & sc & m' & i & j & scaled & raw
        & Hec & Hef & _ & _ & Ti & Tj & _ & _ & _ & ->).
  cbn [Main.country_encoder Main.field_encoder] in Hec, Hef.
  inversion Hec; inversion Hef; subst ec ef.
  destruct (EncoderOrder.transform_Some_bound _ _ _ Ti) as [Hc Li].
  destruct (EncoderOrder.transform_Some_bound _ _ _ Tj) as [Hf Lj].
  rewrite (LabelEncoderFacts.transform_fit_rank _ _ Hc) in Ti.
  rewrite (LabelEncoderFacts.transform_fit_rank _ _ Hf) in Tj.
  inversion Ti; inversion Tj.
  change (List.length (LabelEncoder.unique Main.COUNTRIES)) with 11%nat in Li.
  change (List.length (LabelEncoder.unique Main.STEM_FIELDS)) with 4%nat in Lj.
  cbn [Main.input_features Main.f_year Main.f_female_enrollment_percent
       Main.f_gender_gap_index Main.country_name Main.stem_field_name
       Main.model_used Main.country_encoded Main.stem_field_encoded
       Main.country_rank Main.field_rank].
  repeat split; try reflexivity; lia.
Qed.

Lemma post_predict_response_witness :
  exists out tr',
    Main.post_predict (globals_with example_model) example_request []
    = (inr out, tr')
    /\ Main.country_name (Main.input_features out) = "United States"
    /\ (0 <= Main.country_encoded (Main.input_features out) < 11)%Z.
Proof.
  destruct (Main.post_predict (globals_with example_model) example_request [])
    as [[e | out] tr'] eqn:Hrun; [vm_compute in Hrun; discriminate Hrun |].
  destruct (post_predict_response (Stored example_model) [] 0%Q
              (globals_with example_model) example_request [] out tr'
              eq_refl Hrun)
    as (_ & _ & _ & Hname & _ & _ & _ & _ & Hcode & _).
  exists out, tr'. split; [reflexivity |]. split; [exact Hname | exact Hcode].
Defined.

(** X10.  Requests before the load.  While the country encoder is still [None],
    a valid request is answered with the 500 answer whose details are the
    [AttributeError] of the first call, and nothing has been called. *)
Theorem post_predict_before_load :
  forall (g : Main.globals) (body : Main.PredictionInput) (tr : list call),
    Main.country_encoder g = None ->
    Main.PredictionInput_errors body = [] ->
    Main.post_predict g body tr
    = (inl (Main.prediction_failed
              (AttributeError "'NoneType' object has no attribute 'transform'")),
       tr).
Proof.
  intros g body tr Hnone Hv. unfold Main.post_predict. rewrite Hv.
  apply MainFacts.PredictionInput_errors_nil in Hv as (_ & _ & _ & Hc & Hf).
  apply mem_In in Hc, Hf.
  unfold Main.predict_graduation_rate, try_except. rewrite Hc, Hf, Hnone.
  reflexivity.
Qed.

Lemma post_predict_before_load_witness :
  Main.post_predict Main.initial_globals example_request []
  = (inl (Main.prediction_failed
            (AttributeError "'NoneType' object has no attribute 'transform'")),
     []).
Proof.
  apply (post_predict_before_load Main.initial_globals example_request []).
  - reflexivity.
  - vm_compute. reflexivity.
Defined.








(** X15.  Result of [STEMPredictionService.predict].  On a constructed service a
    returned result echoes the five arguments, carries the five feature
    names, and its codes are the alphabetical ranks in the lists of the
    service, the country code in [0, 6) and the field code in [0, 4).  The
    two encoders, the scaler and the regressor have each been called once,
    in this order, the scaler on [year, enrollment, gender gap index,
    country code, field code]. *)
Theorem service_predict_result :
  forall (fs : artifact) (path : string) (self : Prediction.STEMPredictionService)
         (y : Z) (fe ggi : pyfloat) (c f : string)
         (tr : list call) (out : Prediction.result) (tr' : list call),
    Prediction.new fs path = inr self ->
    Prediction.predict self y fe ggi c f tr = (inr out, tr') ->
    let i := LabelEncoder.rank (Prediction.countries self) c in
    let j := LabelEncoder.rank (Prediction.stem_fields self) f in
    Prediction.r_year out = y
    /\ Prediction.r_female_enrollment_percent out = fe
    /\ Prediction.r_gender_gap_index out = ggi
    /\ Prediction.r_country out = c
    /\ Prediction.r_stem_field out = f
    /\ Prediction.r_feature_names out
       = ["Year"; "Female Enrollment (%)"; "Gender Gap Index";
          "Country_encoded"; "STEM_field_encoded"]
    /\ Prediction.country_encoded out = Z.of_nat i
    /\ Prediction.stem_field_encoded out = Z.of_nat j
    /\ (i < 6)%nat /\ (j < 4)%nat
    /\ exists scaled,
         tr' = (tr ++ [EncoderTransform
                         (LabelEncoder.unique (Prediction.countries self)) c;
                       EncoderTransform
                         (LabelEncoder.unique (Prediction.stem_fields self)) f;
                       ScalerTransform
                         [of_int y; fe; ggi;
                          of_int (Z.of_nat i); of_int (Z.of_nat j)];
                       ModelPredict scaled])%list.
Proof.
  intros fs path self y fe ggi c f tr out tr' Hn H. cbv zeta.
  apply ServiceFacts.new_service in Hn as (m & _ & ->).
  apply ServiceRuns.predict_trace in H
    as (ec & ef & sc & m' & i & j & scaled & raw
        & Hec & Hef & _ & _ & Ti & Tj & _ & _ & -> & ->).
  cbn [Prediction.country_encoder Prediction.field_encoder] in Hec, Hef.
  inversion Hec; inversion Hef; subst ec ef.
  cbn [Prediction.countries Prediction.stem_fields Prediction.feature_names
       Prediction.r_year Prediction.r_female_enrollment_percent
       Prediction.r_gender_gap_index Prediction.r_country
       Prediction.r_stem_field Prediction.r_feature_names
       Prediction.country_encoded Prediction.stem_field_encoded].
  destruct (EncoderOrder.transform_Some_bound _ _ _ Ti) as [Hc Li].
  destruct (EncoderOrder.transform_Some_bound _ _ _ Tj) as [Hf Lj].
  rewrite (LabelEncoderFacts.transform_fit_rank _ _ Hc) in Ti.
  rewrite (LabelEncoderFacts.transform_fit_rank _ _ Hf) in Tj.
  inversion Ti; inversion Tj; subst i j.
  repeat (split; [reflexivity |]).
  split; [exact Li |]. split; [exact Lj |].
  exists scaled. reflexivity.
Qed.

Lemma service_predict_result_witness :
  exists out tr',
    Prediction.predict (service_with example_model)
      2024 (Finite 45.5) (Finite 0.75) "India" "Computer Science" []
    = (inr out, tr')
    /\ Prediction.r_country out = "India"
    /\ Prediction.country_encoded out = 4%Z.
Proof.
  destruct (Prediction.predict (service_with example_model)
              2024 (Finite 45.5) (Finite 0.75) "India" "Computer Science" [])
    as [[e | out] tr'] eqn:Hrun; [vm_compute in Hrun; discriminate Hrun |].
  destruct (service_predict_result (Stored example_model) "model/best_model.pkl"
              (service_with example_model)
              2024 (Finite 45.5) (Finite 0.75) "India" "Computer Science"
              [] out tr' eq_refl Hrun)
    as (_ & _ & _ & Hc & _ & _ & Hcode & _).
  exists out, tr'. split; [reflexivity |]. split; [exact Hc | exact Hcode].
Defined.

(** X16.  Validation in the two modules.  The two pipelines check the same
    numeric ranges and the same four fields; they differ in the countries
    only.  A request the service validates is accepted by [main.py] unless
    its country is ["USA"], which [main.py] always refuses; a request
    [main.py] accepts is validated by the service when its country is one
    of the six of the service. *)
Theorem validation_agreement :
  forall (fs : artifact) (path : string) (self : Prediction.STEMPredictionService)
         (body : Main.PredictionInput),
    Prediction.new fs path = inr self ->
    let valid :=
      fst (Prediction.validate_input self (Main.year body)
             (Main.female_enrollment_percent body) (Main.gender_gap_index body)
             (Main.country body) (Main.stem_field body)) in
    (valid = true -> Main.country body <> "USA" ->
     Main.PredictionInput_errors body = [])
    /\ (Main.country body = "USA" -> Main.PredictionInput_errors body <> [])
    /\ (Main.PredictionInput_errors body = [] ->
        In (Main.country body) (Prediction.countries self) ->
        valid = true).
Proof.
  intros fs path self body Hn. cbv zeta.
  apply ServiceFacts.new_service in Hn as (m & _ & ->).
  split; [| split].
  - intros Hv Husa.
    apply ServiceFacts.validate_input_true in Hv as [_ Hall].
    pose proof (Hall CheckYear) as H1. pose proof (Hall CheckEnrollment) as H2.
    pose proof (Hall CheckGenderGap) as H3. pose proof (Hall CheckCountry) as H4.
    pose proof (Hall CheckStemField) as H5.
    cbn [holds Prediction.countries Prediction.stem_fields
         Prediction.init_attributes] in H1, H2, H3, H4, H5.
    apply MainFacts.PredictionInput_errors_nil.
    repeat (split; [assumption |]). split; [| exact H5].
    cbn in H4. cbn. intuition congruence.
  - intros Husa E.
    apply MainFacts.PredictionInput_errors_nil in E as (_ & _ & _ & Hc & _).
    rewrite Husa in Hc. apply mem_In in Hc. discriminate Hc.
  - intros E Hc.
    apply MainFacts.PredictionInput_errors_nil in E as (H1 & H2 & H3 & _ & H5).
    match goal with
    | |- fst ?v = true =>
        destruct (ServiceFacts.validate_input_cases
                    {| Prediction.model_path := path;
                       Prediction.model := Some m;
                       Prediction.scaler := Some approximate_scaler;
                       Prediction.country_encoder :=
                         Some (LabelEncoder.fit
                                 (Prediction.countries (Prediction.init_attributes path)));
                       Prediction.field_encoder :=
                         Some (LabelEncoder.fit
                                 (Prediction.stem_fields (Prediction.init_attributes path)));
                       Prediction.countries :=
                         Prediction.countries (Prediction.init_attributes path);
                       Prediction.stem_fields :=
                         Prediction.stem_fields (Prediction.init_attributes path);
                       Prediction.feature_names :=
                         Prediction.feature_names (Prediction.init_attributes path) |}
                    (Main.year body) (Main.female_enrollment_percent body)
                    (Main.gender_gap_index body) (Main.country body)
                    (Main.stem_field body))
          as [(N & _) | [(_ & N & _) | [(_ & _ & N & _)
             | [(_ & _ & _ & N & _) | [(_ & _ & _ & _ & N & _)
             | (_ & _ & _ & _ & _ & Ev)]]]]]
    end; cbn [holds Prediction.countries Prediction.stem_fields] in *;
      try (exfalso; tauto).
    now rewrite Ev.
Qed.

Lemma validation_agreement_witness :
  Main.PredictionInput_errors
    {| Main.year := 2024;
       Main.female_enrollment_percent := Finite 45.5;
       Main.gender_gap_index := Finite 0.75;
       Main.country := "India";
       Main.stem_field := "Biology" |} = [].
Proof.
  apply (validation_agreement (Stored example_model) "model/best_model.pkl"
           (service_with example_model)
           {| Main.year := 2024;
              Main.female_enrollment_percent := Finite 45.5;
              Main.gender_gap_index := Finite 0.75;
              Main.country := "India";
              Main.stem_field := "Biology" |} eq_refl).
  - reflexivity.
  - cbn. discriminate.
Defined.


(** X18.  The schema of [input_schema.py] and the model of [main.py].  The two
    declarations of [PredictionInput] accept the same bodies: the bounds
    are the same and the members of the two enumerations are the strings
    of the two lists of [main.py].  What the schema holds after validation
    is the body with the enrollment rounded to 2 decimals and the gender
    gap index to 3. *)
Theorem schema_accepts_same_requests :
  forall (body : Main.PredictionInput),
    ((exists v, InputSchema.PredictionInput body = inr v)
     <-> Main.PredictionInput_errors body = [])
    /\ forall v,
         InputSchema.PredictionInput body = inr v ->
         v = {| Main.year := Main.year body;
                Main.female_enrollment_percent :=
                  py_round2 (Main.female_enrollment_percent body);
                Main.gender_gap_index :=
                  InputSchema.py_round3 (Main.gender_gap_index body);
                Main.country := Main.country body;
                Main.stem_field := Main.stem_field body |}.
Proof.
  intros body. split.
  - split.
    + intros [v H]. eapply SchemaFacts.PredictionInput_inr, H.
    + intros H. eexists. now apply SchemaFacts.PredictionInput_accepts.
  - intros v H.
    pose proof (SchemaFacts.PredictionInput_inr _ _ H) as Hv.
    rewrite (SchemaFacts.PredictionInput_accepts _ Hv) in H.
    now inversion H.
Qed.

(** The example request: the schema accepts it with values that are
    already rounded. *)
Lemma schema_accepts_same_requests_witness :
  exists v,
    InputSchema.PredictionInput example_request = inr v
    /\ Main.country v = "United States".
Proof.
  destruct (schema_accepts_same_requests example_request) as [[_ Hacc] Hval].
  destruct (Hacc eq_refl) as [v Hv].
  exists v. split; [exact Hv |]. now rewrite (Hval v Hv).
Defined.

(** X19.  Values validated by the schema.  The range test inside the two
    validators never fires, since the bounds of [Field] are checked first.
    The validated enrollment is in [0, 100] and the validated gender gap
    index in [0, 1]; the validated values are accepted by [main.py], and
    validating them again changes nothing. *)
Theorem schema_validated_values :
  forall (body v : Main.PredictionInput),
    InputSchema.PredictionInput body = inr v ->
    InputSchema.validate_enrollment (Main.female_enrollment_percent body)
    = inr (Main.female_enrollment_percent v)
    /\ InputSchema.validate_gender_gap (Main.gender_gap_index body)
       = inr (Main.gender_gap_index v)
    /\ float_in_range 0 100 (Main.female_enrollment_percent v)
    /\ float_in_range 0 1 (Main.gender_gap_index v)
    /\ Main.PredictionInput_errors v = []
    /\ InputSchema.PredictionInput v = inr v.
Proof.
  intros body v H.
  pose proof (SchemaFacts.PredictionInput_inr _ _ H) as Hv.
  rewrite (SchemaFacts.PredictionInput_accepts _ Hv) in H.
  inversion H; subst v; clear H.
  cbn [Main.female_enrollment_percent Main.gender_gap_index].
  apply MainFacts.PredictionInput_errors_nil in Hv as (H1 & H2 & H3 & H4 & H5).
  assert (Hv' : Main.PredictionInput_errors
                  {| Main.year := Main.year body;
                     Main.female_enrollment_percent :=
                       py_round2 (Main.female_enrollment_percent body);
                     Main.gender_gap_index :=
                       InputSchema.py_round3 (Main.gender_gap_index body);
                     Main.country := Main.country body;
                     Main.stem_field := Main.stem_field body |} = []).
  { apply MainFacts.PredictionInput_errors_nil.
    cbn [Main.year Main.female_enrollment_percent Main.gender_gap_index
         Main.country Main.stem_field].
    split; [exact H1 |].
    split; [now apply SchemaFacts.py_round2_in_range |].
    split; [now apply SchemaFacts.py_round3_in_range |].
    split; assumption. }
  unfold InputSchema.validate_enrollment, InputSchema.validate_gender_gap.
  rewrite (SchemaFacts.validator_test _ _ _ H2),
    (SchemaFacts.validator_test _ _ _ H3).
  split; [reflexivity |]. split; [reflexivity |].
  split; [now apply SchemaFacts.py_round2_in_range |].
  split; [now apply SchemaFacts.py_round3_in_range |].
  split; [exact Hv' |].
  rewrite (SchemaFacts.PredictionInput_accepts _ Hv'). cbn.
  now rewrite SchemaFacts.py_round2_idempotent, SchemaFacts.py_round3_idempotent.
Qed.

(** An enrollment of 45.456 and an index of 0.7546 are kept as 45.46 and
    0.755. *)
Lemma schema_validated_values_witness :
  let body := {| Main.year := 2024;
                 Main.female_enrollment_percent := Finite 45.456;
                 Main.gender_gap_index := Finite 0.7546;
                 Main.country := "Japan";
                 Main.stem_field := "Mathematics" |} in
  let v := {| Main.year := 2024;
              Main.female_enrollment_percent := Finite (4546 # 100);
              Main.gender_gap_index := Finite (755 # 1000);
              Main.country := "Japan";
              Main.stem_field := "Mathematics" |} in
  InputSchema.PredictionInput body = inr v
  /\ InputSchema.PredictionInput v = inr v.
Proof.
  intros body v.
  assert (H : InputSchema.PredictionInput body = inr v) by reflexivity.
  split; [exact H |].
  apply (schema_validated_values body v H).
Defined.


